(** * EEG/ECG multichannel plotter: a shallow embedding of [eeg_plotter.py]

    The development follows the Python source function by function.
    Python values are modelled as the language has them:
    - a [str] is a sequence of Unicode code points ([list N]);
    - an [int] is unbounded ([Z]);
    - a [float] is an IEEE-754 binary64 number ([spec_float] with
      precision 53 and maximal exponent 1024);
    - an exception is a value of [exn], and a call that may raise returns
      a [result].

    The built-in string and number operations used by the source
    ([str.strip], [str.startswith], [in], [str.split], [str.replace],
    [float], [format(x, '.2f')]) are given first, then the methods of
    the class [EEGPlotter], then the theorems. *)

From Stdlib Require Import List ZArith NArith Bool Lia String Ascii Permutation.
From Stdlib Require Import SpecFloat.
Import ListNotations.

Set Warnings "-register-all".
Open Scope N_scope.

(* ================================================================= *)
(** ** Python strings *)

Definition char := N.
Definition str := list char.

(** Python literals are written as Rocq literals and decoded from UTF-8,
    so that [u "Time,"] is the string ['Time,'] and a non-ASCII character
    is one code point. *)
Fixpoint utf8_go (acc : N) (need : nat) (bs : list N) : str :=
  match bs with
  | [] => []
  | b :: bs' =>
      match need with
      | S k =>
          let acc' := acc * 64 + b mod 64 in
          match k with
          | O => acc' :: utf8_go 0 O bs'
          | S _ => utf8_go acc' k bs'
          end
      | O =>
          if b <? 128 then b :: utf8_go 0 O bs'
          else if b <? 224 then utf8_go (b mod 32) 1%nat bs'
          else if b <? 240 then utf8_go (b mod 16) 2%nat bs'
          else utf8_go (b mod 8) 3%nat bs'
      end
  end.

Definition u (s : string) : str :=
  utf8_go 0 O (map N_of_ascii (list_ascii_of_string s)).

Fixpoint str_eqb (a b : str) : bool :=
  match a, b with
  | [], [] => true
  | x :: a', y :: b' => (x =? y) && str_eqb a' b'
  | _, _ => false
  end.

(** [c.isspace()]: the code points Python treats as whitespace. *)
Definition isspace (c : char) : bool :=
  ((9 <=? c) && (c <=? 13)) || ((28 <=? c) && (c <=? 32))
  || (c =? 133) || (c =? 160) || (c =? 5760)
  || ((8192 <=? c) && (c <=? 8202))
  || (c =? 8232) || (c =? 8233) || (c =? 8239) || (c =? 8287)
  || (c =? 12288).

(** Removal of the leading, respectively trailing, characters that
    satisfy [p]. *)
Fixpoint lstrip_by (p : char -> bool) (s : str) : str :=
  match s with
  | [] => []
  | c :: s' => if p c then lstrip_by p s' else s
  end.

Fixpoint rstrip_by (p : char -> bool) (s : str) : str :=
  match s with
  | [] => []
  | c :: s' =>
      match rstrip_by p s' with
      | [] => if p c then [] else [c]
      | r => c :: r
      end
  end.

(** [s.strip()] *)
Definition strip (s : str) : str := rstrip_by isspace (lstrip_by isspace s).

(** [s.startswith(p)] *)
Fixpoint startswith (s p : str) {struct p} : bool :=
  match p, s with
  | [], _ => true
  | _ :: _, [] => false
  | a :: p', b :: s' => (a =? b) && startswith s' p'
  end.

(** [sub in s] for two strings. *)
Fixpoint str_in (sub s : str) : bool :=
  startswith s sub
  || match s with
     | [] => false
     | _ :: s' => str_in sub s'
     end.

(** [s.split(sep)] for a one-character separator, as in [line.split(',')]. *)
Fixpoint split (sep : char) (s : str) : list str :=
  match s with
  | [] => [[]]
  | c :: s' =>
      if c =? sep then [] :: split sep s'
      else match split sep s' with
           | f :: fs => (c :: f) :: fs
           | [] => [[c]]
           end
  end.

(** [s.replace(old, new)]: the leftmost non-overlapping occurrences of
    [old] are replaced; [skip] counts the characters of a matched
    occurrence still to be passed over. *)
Fixpoint replace_go (old new : str) (skip : nat) (s : str) : str :=
  match s with
  | [] => []
  | c :: s' =>
      match skip with
      | S k => replace_go old new k s'
      | O =>
          if startswith s old
          then new ++ replace_go old new (List.length old - 1) s'
          else c :: replace_go old new O s'
      end
  end.

Definition replace (old new s : str) : str :=
  match old with
  | [] => new ++ flat_map (fun c => c :: new) s
  | _ :: _ => replace_go old new O s
  end.

(** [x in l] for a string and a list of strings. *)
Definition list_in (x : str) (l : list str) : bool := existsb (str_eqb x) l.

(* ================================================================= *)
(** ** Python exceptions and results *)

Inductive exn :=
| ValueError (msg : str)
| TypeError
| KeyError (key : str)
| AttributeError
| OverflowError.

Inductive result (A : Type) :=
| Ok (a : A)
| Raise (e : exn).

Arguments Ok {A} a.
Arguments Raise {A} e.

Definition bind {A B : Type} (r : result A) (k : A -> result B) : result B :=
  match r with
  | Ok a => k a
  | Raise e => Raise e
  end.

Notation "x <- r ;; k" := (bind r (fun x => k))
  (at level 61, r at next level, right associativity).

(* ================================================================= *)
(** ** Python floats: [float(s)] and [format(x, '.2f')] *)

Definition float := spec_float.

(** The code point of the digit zero of every block of Unicode decimal
    digits (general category Nd, Unicode 14); the nine code points that
    follow it are the digits one to nine. *)
Definition decimal_zeros : list N :=
  [48; 1632; 1776; 1984; 2406; 2534; 2662; 2790; 2918; 3046; 3174; 3302;
   3430; 3558; 3664; 3792; 3872; 4160; 4240; 6112; 6160; 6470; 6608; 6784;
   6800; 6992; 7088; 7232; 7248; 42528; 43216; 43264; 43472; 43504; 43600;
   44016; 65296; 66720; 68912; 69734; 69872; 69942; 70096; 70384; 70736;
   70864; 71248; 71360; 71472; 71904; 72016; 72784; 73040; 73120; 92768;
   92864; 93008; 120782; 120792; 120802; 120812; 120822; 123200; 123632;
   125264; 130032].

Definition decimal_value (c : char) : option N :=
  match find (fun z => (z <=? c) && (c <? z + 10)) decimal_zeros with
  | Some z => Some (c - z)
  | None => None
  end.

(** First step of [float(s)]: ASCII is kept, any other whitespace becomes
    a space, any other decimal digit its ASCII digit, and the string is
    cut at the first other character, which becomes ['?']. *)
Fixpoint to_ascii_decimal (s : str) : str :=
  match s with
  | [] => []
  | c :: s' =>
      if c <? 127 then c :: to_ascii_decimal s'
      else if isspace c then 32 :: to_ascii_decimal s'
      else match decimal_value c with
           | Some d => (48 + d) :: to_ascii_decimal s'
           | None => [63]
           end
  end.

Definition isdigit (c : char) : bool := (48 <=? c) && (c <=? 57).

(** Second step: an underscore is accepted only between two digits, and
    is dropped; [prev] is the character before [s]. *)
Fixpoint drop_underscores (prev : char) (s : str) : option str :=
  match s with
  | [] => if prev =? 95 then None else Some []
  | c :: s' =>
      if c =? 95 then
        if isdigit prev then drop_underscores c s' else None
      else if (prev =? 95) && negb (isdigit c) then None
      else option_map (cons c) (drop_underscores c s')
  end.

(** Whitespace of the C locale, stripped around the number. *)
Definition c_isspace (c : char) : bool :=
  ((9 <=? c) && (c <=? 13)) || (c =? 32).

Definition parse_sign (s : str) : bool * str :=
  match s with
  | 45 :: r => (true, r)
  | 43 :: r => (false, r)
  | _ => (false, s)
  end.

Fixpoint span_digits (s : str) : list N * str :=
  match s with
  | [] => ([], [])
  | c :: s' =>
      if isdigit c
      then let (ds, r) := span_digits s' in ((c - 48) :: ds, r)
      else ([], s)
  end.

Definition digits_value (ds : list N) : N :=
  fold_left (fun a d => 10 * a + d) ds 0.

(** An exponent part [e], [E] with an optional sign and at least one
    digit; a malformed exponent part is left unread. *)
Definition parse_exponent (s : str) : Z * str :=
  match s with
  | [] => (0%Z, [])
  | c :: r =>
      if (c =? 101) || (c =? 69) then
        let (neg, r1) := parse_sign r in
        match span_digits r1 with
        | ([], _) => (0%Z, s)
        | (ds, r2) =>
            let v := Z.of_N (digits_value ds) in
            ((if neg then - v else v)%Z, r2)
        end
      else (0%Z, s)
  end.

(** A decimal number, read to the end of the string: its digits as an
    integer and the power of ten that scales them. *)
Definition parse_decimal (s : str) : option (N * Z) :=
  let (ip, r1) := span_digits s in
  let (fp, r2) := match r1 with
                  | 46 :: r => span_digits r
                  | _ => ([], r1)
                  end in
  match ip ++ fp with
  | [] => None
  | ds =>
      let (e, r3) := parse_exponent r2 in
      match r3 with
      | [] => Some (digits_value ds, (e - Z.of_nat (List.length fp))%Z)
      | _ :: _ => None
      end
  end.

(** The binary64 number nearest to [m * 10 ^ e] (ties to even; an
    overflow gives an infinity, an underflow a zero). *)
Definition float_of_decimal (neg : bool) (m : N) (e : Z) : float :=
  match m with
  | N0 => S754_zero neg
  | Npos p =>
      if (0 <=? e)%Z
      then binary_round 53 1024 neg (Z.to_pos (Zpos p * 10 ^ e)) 0
      else SFdiv 53 1024 (S754_finite neg p 0)
                         (S754_finite false (Z.to_pos (10 ^ (- e))) 0)
  end.

Definition tolower (c : char) : char :=
  if (65 <=? c) && (c <=? 90) then c + 32 else c.

(** [float(s)] for a string; [None] stands for the [ValueError] that
    Python raises on a malformed number. *)
Definition py_float (s : str) : option float :=
  match drop_underscores 0 (to_ascii_decimal s) with
  | None => None
  | Some t =>
      let (neg, r) := parse_sign (rstrip_by c_isspace (lstrip_by c_isspace t)) in
      match parse_decimal r with
      | Some (m, e) => Some (float_of_decimal neg m e)
      | None =>
          let l := map tolower r in
          if str_eqb l (u "inf") || str_eqb l (u "infinity")
          then Some (S754_infinity neg)
          else if str_eqb l (u "nan") then Some S754_nan
          else None
      end
  end.

(** [float(z)] for an integer. *)
Definition float_of_int (z : Z) : result float :=
  match binary_normalize 53 1024 z 0 false with
  | S754_infinity _ => Raise OverflowError
  | f => Ok f
  end.

Fixpoint uint_chars (d : Decimal.uint) : str :=
  match d with
  | Decimal.Nil => []
  | Decimal.D0 r => 48 :: uint_chars r
  | Decimal.D1 r => 49 :: uint_chars r
  | Decimal.D2 r => 50 :: uint_chars r
  | Decimal.D3 r => 51 :: uint_chars r
  | Decimal.D4 r => 52 :: uint_chars r
  | Decimal.D5 r => 53 :: uint_chars r
  | Decimal.D6 r => 54 :: uint_chars r
  | Decimal.D7 r => 55 :: uint_chars r
  | Decimal.D8 r => 56 :: uint_chars r
  | Decimal.D9 r => 57 :: uint_chars r
  end.

Definition str_of_N (n : N) : str := uint_chars (N.to_uint n).

(** The integer nearest to [n / d], ties to even, for [0 <= n], [0 < d]. *)
Definition round_half_even (n d : Z) : Z :=
  let q := (n / d)%Z in
  match (2 * (n mod d) ?= d)%Z with
  | Lt => q
  | Gt => (q + 1)%Z
  | Eq => if Z.even q then q else (q + 1)%Z
  end.

(** A number of hundredths printed with two decimals. *)
Definition fixed2 (neg : bool) (h : N) : str :=
  (if neg then [45] else [])
  ++ str_of_N (h / 100) ++ [46; 48 + (h mod 100) / 10; 48 + h mod 10].

(** [format(f, '.2f')] for a float: the exact value of [f] rounded to
    two decimals, ties to even. *)
Definition float_format_2f (f : float) : str :=
  match f with
  | S754_nan => u "nan"
  | S754_infinity s => if s then u "-inf" else u "inf"
  | S754_zero s => fixed2 s 0
  | S754_finite s m e =>
      fixed2 s (Z.to_N (if (0 <=? e)%Z
                        then Zpos m * 2 ^ e * 100
                        else round_half_even (Zpos m * 100) (2 ^ (- e))))%Z
  end.

(* ================================================================= *)
(** ** Python objects *)

(** The values that reach the program: the sample rate is an [int] or a
    [float], and a selection event is decoded JSON.  A [dict] keeps its
    items in insertion order, each key once. *)
Inductive pyobj :=
| PNone
| PBool (b : bool)
| PInt (z : Z)
| PFloat (f : float)
| PStr (s : str)
| PList (l : list pyobj)
| PDict (d : list (str * pyobj)).

Definition dict := list (str * pyobj).

Fixpoint dict_get (k : str) (d : dict) : option pyobj :=
  match d with
  | [] => None
  | (k', v) :: d' => if str_eqb k k' then Some v else dict_get k d'
  end.

(** [d[k] = v] *)
Fixpoint dict_set (k : str) (v : pyobj) (d : dict) : dict :=
  match d with
  | [] => [(k, v)]
  | (k', v') :: d' =>
      if str_eqb k k' then (k, v) :: d' else (k', v') :: dict_set k v d'
  end.

(** Truth value of an object, as tested by [if x] and [not x]. *)
Definition truthy (x : pyobj) : bool :=
  match x with
  | PNone => false
  | PBool b => b
  | PInt z => negb (z =? 0)%Z
  | PFloat (S754_zero _) => false
  | PFloat _ => true
  | PStr s => match s with [] => false | _ :: _ => true end
  | PList l => match l with [] => false | _ :: _ => true end
  | PDict d => match d with [] => false | _ :: _ => true end
  end.

(** [k in x] for a string [k]: a key of a dict, an element of a list, a
    substring of a string; other objects are not containers. *)
Definition py_in (k : str) (x : pyobj) : result bool :=
  match x with
  | PDict d => Ok (existsb (fun kv => str_eqb k (fst kv)) d)
  | PList l => Ok (existsb (fun e => match e with
                                     | PStr s => str_eqb k s
                                     | _ => false
                                     end) l)
  | PStr s => Ok (str_in k s)
  | _ => Raise TypeError
  end.

(** [x[k]] for a string [k]. *)
Definition getitem (x : pyobj) (k : str) : result pyobj :=
  match x with
  | PDict d => match dict_get k d with
               | Some v => Ok v
               | None => Raise (KeyError k)
               end
  | _ => Raise TypeError
  end.

(** [a, b = x]: [x] must be an iterable of exactly two items. *)
Definition unpack2 (x : pyobj) : result (pyobj * pyobj) :=
  match x with
  | PList [a; b] => Ok (a, b)
  | PStr [a; b] => Ok (PStr [a], PStr [b])
  | PDict [(a, _); (b, _)] => Ok (PStr a, PStr b)
  | PList _ | PStr _ | PDict _ =>
      Raise (ValueError (u "not enough or too many values to unpack"))
  | _ => Raise TypeError
  end.

(** [format(x, '.2f')], the conversion behind [f"{x:.2f}"]. *)
Definition format_2f (x : pyobj) : result str :=
  match x with
  | PFloat f => Ok (float_format_2f f)
  | PInt z => f <- float_of_int z ;; Ok (float_format_2f f)
  | PBool b => f <- float_of_int (if b then 1 else 0)%Z ;; Ok (float_format_2f f)
  | PStr _ => Raise (ValueError (u "Unknown format code 'f' for object of type 'str'"))
  | _ => Raise TypeError
  end.

(** [a == b] on numbers: an [int] and a [float] are equal when they
    denote the same number. *)
Definition num_eqb (a b : pyobj) : bool :=
  match a, b with
  | PInt x, PInt y => (x =? y)%Z
  | PFloat f, PFloat g => SFeqb f g
  | PInt x, PFloat f | PFloat f, PInt x =>
      match f with
      | S754_zero _ => (x =? 0)%Z
      | S754_finite s m e =>
          let v := cond_Zopp s (Zpos m) in
          if (0 <=? e)%Z then (x =? v * 2 ^ e)%Z else (x * 2 ^ (- e) =? v)%Z
      | _ => false
      end
  | _, _ => false
  end.

(* ================================================================= *)
(** ** The class [EEGPlotter] *)

(** What the program uses of a pandas data frame: its column labels (and
    the cells under them, row by row). *)
Record DataFrame := {
  columns : list str;
  values : list (list pyobj)
}.

Record EEGPlotter := {
  csv_file : str;
  data : option DataFrame;
  channels : list str;
  sample_rate : pyobj
}.

Definition __init__ (csv_file : str) : EEGPlotter :=
  {| csv_file := csv_file; data := None; channels := []; sample_rate := PInt 200 |}.

(** *** [parse_eeg_csv] *)

(** The test that ends the scan: [line.startswith('Time,') or
    line.startswith('Time\t')]. *)
Definition is_header (line : str) : bool :=
  startswith line (u "Time,") || startswith line (u "Time" ++ [9]).

(** The [try] block of the scan: on any exception the sample rate and
    the metadata are left as they were. *)
Definition scan_sample_rate (line : str) (sr : pyobj) (metadata : dict)
  : pyobj * dict :=
  if str_in (u "Sample_Frequency_(Hz)") line then
    match nth_error (split 44 line) 1 with
    | Some field =>
        match py_float field with
        | Some f => (PFloat f, dict_set (u "sample_rate") (PFloat f) metadata)
        | None => (sr, metadata)
        end
    | None => (sr, metadata)
    end
  else (sr, metadata).

(** The loop [for i, line in enumerate(lines)], from index [i] on; it
    returns [header_line_idx], the sample rate and the metadata. *)
Fixpoint scan_lines (i : Z) (lines : list str) (sr : pyobj) (metadata : dict)
  : Z * pyobj * dict :=
  match lines with
  | [] => ((-1)%Z, sr, metadata)
  | raw :: rest =>
      let line := strip raw in
      let (sr', metadata') := scan_sample_rate line sr metadata in
      if is_header line then (i, sr', metadata')
      else scan_lines (i + 1) rest sr' metadata'
  end.

(** [col.replace('**', '').replace(':', '_').strip()] *)
Definition clean_column (col : str) : str :=
  strip (replace (u ":") (u "_") (replace (u "**") [] col)).

Definition exclude_cols : list str :=
  map u ["Trigger"; "Time_Offset"; "ADC_Status"; "ADC_Sequence";
         "Event"; "X3_"; "Comments"; "CMF"]%string.

(** The condition of the comprehension that builds [self.channels]. *)
Definition keep_column (col : str) : bool :=
  negb (str_eqb col (u "Time"))
  && negb (list_in col exclude_cols)
  && truthy (PStr (strip col)).

(** [parse_eeg_csv] on a file whose lines are [lines].  [read_csv lines k]
    stands for [pd.read_csv(self.csv_file, skiprows=k, low_memory=False)].
    The object is returned with the result, since the method assigns to
    its attributes before it may raise. *)
Definition parse_eeg_csv (read_csv : list str -> Z -> result DataFrame)
    (lines : list str) (self : EEGPlotter) : result dict * EEGPlotter :=
  let '(header_line_idx, sr, metadata) :=
    scan_lines 0 lines (sample_rate self) [] in
  let self1 := {| csv_file := csv_file self; data := data self;
                  channels := channels self; sample_rate := sr |} in
  if (header_line_idx =? -1)%Z then
    (Raise (ValueError (u "Could not find header line starting with 'Time'")),
     self1)
  else
    match read_csv lines header_line_idx with
    | Raise e => (Raise e, self1)
    | Ok df =>
        let df' := {| columns := map clean_column (columns df);
                      values := values df |} in
        (Ok metadata,
         {| csv_file := csv_file self; data := Some df';
            channels := filter keep_column (columns df');
            sample_rate := sr |})
    end.

(** *** [categorize_channels] *)

Record categories := {
  eeg : list str;
  ecg : list str;
  reference : list str
}.

Definition is_ecg (channel : str) : bool :=
  existsb (fun x => str_in x channel) [u "X1_LEOG"; u "X2_REOG"].

Definition is_reference (channel : str) : bool := str_in (u "CM") channel.

(** The loop [for channel in self.channels], appending to one of the
    three lists. *)
Fixpoint categorize_loop (chs : list str) (acc : categories) : categories :=
  match chs with
  | [] => acc
  | channel :: rest =>
      categorize_loop rest
        (if is_ecg channel then
           {| eeg := eeg acc; ecg := ecg acc ++ [channel];
              reference := reference acc |}
         else if is_reference channel then
           {| eeg := eeg acc; ecg := ecg acc;
              reference := reference acc ++ [channel] |}
         else
           {| eeg := eeg acc ++ [channel]; ecg := ecg acc;
              reference := reference acc |})
  end.

Definition categorize_channels (self : EEGPlotter) : categories :=
  categorize_loop (channels self) {| eeg := []; ecg := []; reference := [] |}.

(** *** [create_interactive_plot] *)

Definition ordered_channels (self : EEGPlotter) : list str :=
  let channel_categories := categorize_channels self in
  eeg channel_categories ++ ecg channel_categories
  ++ reference channel_categories.

(** [l[:k]] for an integer [k]; a negative [k] counts from the end. *)
Definition slice_to (l : list str) (k : Z) : list str :=
  if (0 <=? k)%Z then firstn (Z.to_nat k) l
  else firstn (Z.to_nat (Z.of_nat (List.length l) + k)) l.

(** [ordered_channels[:max_channels] if max_channels else ordered_channels],
    where [max_channels] is [None] or an integer. *)
Definition channels_to_plot (self : EEGPlotter) (max_channels : option Z)
  : list str :=
  match max_channels with
  | None => ordered_channels self
  | Some k =>
      if truthy (PInt k) then slice_to (ordered_channels self) k
      else ordered_channels self
  end.

Definition subplot_title (cc : categories) (ch : str) : str :=
  if list_in ch (ecg cc) then ch ++ u " (mV) - ECG"
  else if list_in ch (reference cc) then ch ++ u " (Reference)"
  else ch ++ u " (μV) - EEG".

(** The palettes [px.colors.qualitative.Set1] and [Set2] of the plotly
    library (the ColorBrewer sets of these names), which the source
    concatenates into [colors]. *)
Definition Set1 : list str :=
  map u ["rgb(228,26,28)"; "rgb(55,126,184)"; "rgb(77,175,74)";
         "rgb(152,78,163)"; "rgb(255,127,0)"; "rgb(255,255,51)";
         "rgb(166,86,40)"; "rgb(247,129,191)"; "rgb(153,153,153)"]%string.

Definition Set2 : list str :=
  map u ["rgb(102,194,165)"; "rgb(252,141,98)"; "rgb(141,160,203)";
         "rgb(231,138,195)"; "rgb(166,216,84)"; "rgb(255,217,47)";
         "rgb(229,196,148)"; "rgb(179,179,179)"]%string.

Definition colors : list str := Set1 ++ Set2.

(** What the program asks of the charting library: one trace and one
    y-axis per plotted channel, and the layout. *)
Record Trace := {
  tr_name : str;
  tr_color : str;
  tr_row : Z
}.

Record YAxis := {
  ya_row : Z;
  ya_title : str;
  ya_gridcolor : str;
  ya_zerolinecolor : str
}.

Record Figure := {
  fig_rows : Z;
  fig_subplot_titles : list str;
  fig_traces : list Trace;
  fig_yaxes : list YAxis;
  fig_height : Z;
  fig_dragmode : str;
  fig_matches_x : list Z;
  fig_time_label_row : Z
}.

Definition yaxis_of (cc : categories) (channel : str) (row : Z) : YAxis :=
  if list_in channel (ecg cc) then
    {| ya_row := row; ya_title := u "mV";
       ya_gridcolor := u "lightcoral"; ya_zerolinecolor := u "black" |}
  else if list_in channel (reference cc) then
    {| ya_row := row; ya_title := u "μV (Ref)";
       ya_gridcolor := u "lightgray"; ya_zerolinecolor := u "black" |}
  else
    {| ya_row := row; ya_title := u "μV";
       ya_gridcolor := u "lightblue"; ya_zerolinecolor := u "blue" |}.

(** The loop [for i, channel in enumerate(channels_to_plot)], from index
    [i] on.  A trace reads [self.data['Time']], which raises [KeyError]
    when the frame has no such column. *)
Fixpoint add_traces (df : DataFrame) (cc : categories) (i : Z)
    (chs : list str) : result (list Trace * list YAxis) :=
  match chs with
  | [] => Ok ([], [])
  | channel :: rest =>
      if list_in channel (columns df) then
        if list_in (u "Time") (columns df) then
          let color :=
            nth (Z.to_nat (i mod Z.of_nat (List.length colors))) colors [] in
          r <- add_traces df cc (i + 1) rest ;;
          Ok ({| tr_name := channel; tr_color := color; tr_row := i + 1 |}
                :: fst r,
              yaxis_of cc channel (i + 1) :: snd r)
        else Raise (KeyError (u "Time"))
      else add_traces df cc (i + 1) rest
  end%Z.

(** The check that [make_subplots] of the plotly library makes on its
    arguments [rows] and [vertical_spacing=0.015]: with more than one row
    the spacing may not exceed [1 / (rows - 1)], or [ValueError] is
    raised.  The test [0.015 > 1 / (rows - 1)] is written on integers,
    [15 * (rows - 1) > 1000]; it holds from 68 rows on, and the two
    sides are never close enough for the rounding of floats to matter.
    The message stands for plotly's, which also spells out the
    numbers. *)
Definition spacing_message : str :=
  u "Vertical spacing cannot be greater than (1 / (rows - 1))".

Definition make_subplots (rows : Z) : result unit :=
  if (rows <=? 1)%Z then Ok tt
  else if (1000 <? 15 * (rows - 1))%Z then Raise (ValueError spacing_message)
  else Ok tt.

(** [create_interactive_plot(max_channels)]; the result lists the
    requests made to the charting library, after the check of
    [make_subplots] on the number of rows. *)
Definition create_interactive_plot (self : EEGPlotter)
    (max_channels : option Z) : result Figure :=
  let channel_categories := categorize_channels self in
  let chs := channels_to_plot self max_channels in
  let n_channels := Z.of_nat (List.length chs) in
  if (n_channels =? 0)%Z then
    Raise (ValueError (u "No valid channels found to plot"))
  else
    _ <- make_subplots n_channels ;;
    match data self with
    | None => Raise AttributeError
    | Some df =>
        r <- add_traces df channel_categories 0 chs ;;
        Ok {| fig_rows := n_channels;
              fig_subplot_titles := map (subplot_title channel_categories) chs;
              fig_traces := fst r;
              fig_yaxes := snd r;
              fig_height := 150 * n_channels + 100;
              fig_dragmode := u "pan";
              fig_matches_x :=
                map Z.of_nat (seq 2 (List.length chs - 1));
              fig_time_label_row := n_channels |}
    end%Z.

(** The default of the parameter [max_channels]. *)
Definition default_max_channels : option Z := Some 30%Z.

(** *** [update_output], the selection callback of [create_dash_app] *)

(** The callback returns a string, or [None] when it falls off its end. *)
Definition update_output (selected_data : pyobj) : result (option str) :=
  if negb (truthy selected_data) then Ok (Some (u "No region selected."))
  else
    has_range <- py_in (u "range") selected_data ;;
    has_x <- (if has_range : bool
              then r <- getitem selected_data (u "range") ;; py_in (u "x") r
              else Ok false) ;;
    if has_x : bool then
      r <- getitem selected_data (u "range") ;;
      xs <- getitem r (u "x") ;;
      p <- unpack2 xs ;;
      a <- format_2f (fst p) ;;
      b <- format_2f (snd p) ;;
      Ok (Some (u "Selected time window: " ++ a ++ u "–" ++ b ++ u " seconds"))
    else Ok None.

(** A JSON number of an event, read as Python's decoder reads it. *)
Definition json_float (s : string) : pyobj :=
  match py_float (u s) with
  | Some f => PFloat f
  | None => PNone
  end.

(* ================================================================= *)
(** ** Vocabulary of the statements *)

(** [sub] occurs in [s] as a block of consecutive characters. *)
Definition contains (sub s : str) : Prop := exists a b, s = a ++ sub ++ b.

(** The header test, in words: the trimmed line is ['Time'], then a comma
    or a tab, then anything. *)
Definition header_shaped (raw : str) : Prop :=
  exists c rest, (c = 44 \/ c = 9) /\ strip raw = u "Time" ++ c :: rest.

(** A reader for the examples: the cells of the header line, split at
    commas, are the column labels; it stands for a successful
    [pd.read_csv] on a file without quoting. *)
Definition example_read_csv (lines : list str) (skiprows : Z)
  : result DataFrame :=
  match nth_error lines (Z.to_nat skiprows) with
  | Some header => Ok {| columns := split 44 (strip header); values := [] |}
  | None => Raise (ValueError (u "No columns to parse from file"))
  end.

(** The second and third rule of the classifier, each with the rules
    before it excluded. *)
Definition is_ref_only (channel : str) : bool :=
  negb (is_ecg channel) && is_reference channel.

Definition is_eeg (channel : str) : bool :=
  negb (is_ecg channel) && negb (is_reference channel).

(** The names [prefix1], ..., [prefixn]. *)
Definition numbered (prefix : string) (n : nat) : list str :=
  map (fun k => u prefix ++ str_of_N (N.of_nat k)) (seq 1 n).


(** The object after [parse_eeg_csv] on a file with a header line, when
    the frame read from it has the column labels [cols]. *)
Definition loaded (cols : list str) : EEGPlotter :=
  snd (parse_eeg_csv (fun _ _ => Ok {| columns := cols; values := [] |})
                     [u "Time,..."] (__init__ (u "rec.csv"))).

(** The column labels of [self.data] (none before a successful load). *)
Definition columns_of (self : EEGPlotter) : list str :=
  match data self with
  | Some df => columns df
  | None => []
  end.

(** The three results of the scan. *)
Definition header_line_idx (r : Z * pyobj * dict) : Z := fst (fst r).
Definition scanned_rate (r : Z * pyobj * dict) : pyobj := snd (fst r).
Definition scanned_metadata (r : Z * pyobj * dict) : dict := snd r.

(* ================================================================= *)
(** ** [create_dash_app] and [main] *)

(** What [create_dash_app] hands to the Dash server: the figure of the
    graph and the callback wired to its selection. *)
Record DashApp := {
  app_figure : Figure;
  app_callback : pyobj -> result (option str)
}.

(** [create_dash_app]: the figure is built with the default cap, before
    the layout and the callback are declared. *)
Definition create_dash_app (self : EEGPlotter) : result DashApp :=
  fig <- create_interactive_plot self default_max_channels ;;
  Ok {| app_figure := fig; app_callback := update_output |}.

(** A path of the file system, as [main] sees it: absent
    ([os.path.exists] is false), present but not readable as text
    ([open] or [readlines] raises), or a text file with its lines. *)
Inductive file :=
| Missing
| Unreadable
| Lines (lines : list str).

(** What the handler [except Exception as e] of [main] can catch: the
    unbound local [csv_file], an error of the operating system, or an
    exception of the plotter. *)
Inductive failure :=
| UnboundLocal (name : str)
| OSError
| Exn (e : exn).

(** What a run of [main] does, in order: a line printed, the line
    ["Error: " + str(e)] printed by the handler, the server started by
    [app.run]. *)
Inductive output :=
| Print (line : str)
| PrintError (f : failure)
| RunServer (app : DashApp) (debug : bool) (port : Z).

Definition banner : list output :=
  [Print (10 :: u "EEG/ECG Multichannel Data Explorer");
   Print (repeat 61 35)].

(** The [try] block of [main] once [csv_file] is bound; the first line
    printed is the one [parse_eeg_csv] prints before it opens the file. *)
Definition main_try (read_csv : list str -> Z -> result DataFrame)
    (fs : str -> file) (csv_file : str) : list output :=
  Print (u "Loading " ++ csv_file ++ u "...")
  :: match fs csv_file with
     | Missing | Unreadable => [PrintError OSError]
     | Lines lines =>
         let plotter := __init__ csv_file in
         match parse_eeg_csv read_csv lines plotter with
         | (Raise e, _) => [PrintError (Exn e)]
         | (Ok _, plotter') =>
             Print (u "Opening plot in browser...")
             :: match create_dash_app plotter' with
                | Raise e => [PrintError (Exn e)]
                | Ok app => [RunServer app true 8060]
                end
         end
     end.

(** [main()] with [sys.argv = argv].  Without an argument the message is
    printed and the [try] block is entered all the same, where
    [csv_file] is not bound. *)
Definition main (read_csv : list str -> Z -> result DataFrame)
    (fs : str -> file) (argv : list str) : list output :=
  banner ++
  match argv with
  | _ :: csv_file :: _ =>
      match fs csv_file with
      | Missing =>
          [Print (u "Error: File '" ++ csv_file ++ u "' not found!")]
      | _ => main_try read_csv fs csv_file
      end
  | _ =>
      [Print (u "No CSV file provided.");
       PrintError (UnboundLocal (u "csv_file"))]
  end.

(** The suffix of a subplot title and the styling of its y-axis, by the
    markers in the channel name. *)
Definition title_suffix (channel : str) : str :=
  if is_ecg channel then u " (mV) - ECG"
  else if is_reference channel then u " (Reference)"
  else u " (μV) - EEG".

Definition yaxis_style (channel : str) : str * str * str :=
  if is_ecg channel then (u "mV", u "lightcoral", u "black")
  else if is_reference channel then (u "μV (Ref)", u "lightgray", u "black")
  else (u "μV", u "lightblue", u "blue").

(* ================================================================= *)
(** * Properties *)

(** ** Strings *)

Lemma str_eqb_eq (a b : str) : str_eqb a b = true <-> a = b.
Proof.
  revert b; induction a as [|x a IH]; intros [|y b]; simpl;
    try (split; [discriminate | discriminate]); try tauto.
  rewrite andb_true_iff, N.eqb_eq, IH.
  split; [intros [-> ->]; reflexivity | intros E; inversion E; auto].
Qed.

Lemma str_eqb_refl (a : str) : str_eqb a a = true.
Proof. apply str_eqb_eq; reflexivity. Qed.

Lemma list_in_In (x : str) (l : list str) : list_in x l = true <-> In x l.
Proof.
  unfold list_in; rewrite existsb_exists; split.
  - intros (y & Hy & E); apply str_eqb_eq in E; subst; exact Hy.
  - intros H; exists x; split; [exact H | apply str_eqb_refl].
Qed.

Lemma list_in_false (x : str) (l : list str) :
  list_in x l = false <-> ~ In x l.
Proof.
  rewrite <- list_in_In; destruct (list_in x l); split; intros H;
    try reflexivity; try discriminate; try (intros E; discriminate).
  exfalso; apply H; reflexivity.
Qed.

Lemma startswith_spec (s p : str) :
  startswith s p = true <-> exists r, s = p ++ r.
Proof.
  revert s; induction p as [|a p IH]; intros s; simpl.
  - split; [intros _; exists s; reflexivity | reflexivity].
  - destruct s as [|b s].
    + split; [discriminate | intros (r & E); discriminate].
    + rewrite andb_true_iff, N.eqb_eq, IH; split.
      * intros (-> & r & ->); exists r; reflexivity.
      * intros (r & E); inversion E; subst; split; [reflexivity | exists r; reflexivity].
Qed.

Lemma str_in_spec (sub s : str) : str_in sub s = true <-> contains sub s.
Proof.
  unfold contains; induction s as [|c s IH].
  - simpl; rewrite orb_false_r, startswith_spec; split.
    + intros (r & E); exists [], r; exact E.
    + intros (a & b & E); destruct a; [exists b; exact E | discriminate].
  - cbn [str_in]; rewrite orb_true_iff, startswith_spec, IH; split.
    + intros [(r & E) | (a & b & E)].
      * exists [], r; exact E.
      * exists (c :: a), b; rewrite E; reflexivity.
    + intros (a & b & E); destruct a as [|x a].
      * left; exists b; exact E.
      * right; exists a, b; inversion E; reflexivity.
Qed.

(** ** [categorize_channels] *)

Lemma categorize_loop_filter (chs : list str) (acc : categories) :
  categorize_loop chs acc =
  {| eeg := eeg acc ++ filter is_eeg chs;
     ecg := ecg acc ++ filter is_ecg chs;
     reference := reference acc ++ filter is_ref_only chs |}.
Proof.
  revert acc; induction chs as [|c chs IH]; intros acc.
  - simpl; rewrite !app_nil_r; destruct acc; reflexivity.
  - cbn [categorize_loop filter]; rewrite IH; unfold is_eeg, is_ref_only.
    destruct (is_ecg c), (is_reference c); cbn [negb andb eeg ecg reference];
      rewrite <- ?app_assoc; reflexivity.
Qed.

Lemma is_ecg_spec (c : str) :
  is_ecg c = true <-> contains (u "X1_LEOG") c \/ contains (u "X2_REOG") c.
Proof.
  unfold is_ecg; cbn [existsb]; rewrite orb_false_r, orb_true_iff.
  rewrite !str_in_spec; reflexivity.
Qed.

Lemma is_reference_spec (c : str) :
  is_reference c = true <-> contains (u "CM") c.
Proof. apply str_in_spec. Qed.

Lemma is_ref_only_spec (c : str) :
  is_ref_only c = true <->
  ~ (contains (u "X1_LEOG") c \/ contains (u "X2_REOG") c)
  /\ contains (u "CM") c.
Proof.
  unfold is_ref_only; rewrite andb_true_iff, negb_true_iff.
  rewrite <- is_ecg_spec, <- is_reference_spec.
  destruct (is_ecg c); intuition congruence.
Qed.

Lemma is_eeg_spec (c : str) :
  is_eeg c = true <->
  ~ (contains (u "X1_LEOG") c \/ contains (u "X2_REOG") c)
  /\ ~ contains (u "CM") c.
Proof.
  unfold is_eeg; rewrite andb_true_iff, !negb_true_iff.
  rewrite <- is_ecg_spec, <- is_reference_spec.
  destruct (is_ecg c), (is_reference c); intuition congruence.
Qed.

Lemma categorize_channels_filter (self : EEGPlotter) :
  categorize_channels self =
  {| eeg := filter is_eeg (channels self);
     ecg := filter is_ecg (channels self);
     reference := filter is_ref_only (channels self) |}.
Proof. unfold categorize_channels; rewrite categorize_loop_filter; reflexivity. Qed.

Lemma three_way_permutation (l : list str) :
  Permutation (filter is_ecg l ++ filter is_ref_only l ++ filter is_eeg l) l.
Proof.
  induction l as [|c l IH]; [constructor|].
  cbn [filter]; unfold is_ref_only at 1, is_eeg at 1.
  destruct (is_ecg c), (is_reference c); cbn [negb andb app].
  - apply perm_skip, IH.
  - apply perm_skip, IH.
  - symmetry; apply Permutation_cons_app; symmetry; exact IH.
  - symmetry; rewrite app_assoc; apply Permutation_cons_app;
      rewrite <- app_assoc; symmetry; exact IH.
Qed.

(** C1.  [categorize_channels] splits [self.channels] into three lists
    by the rules taken in order: a name that contains ['X1_LEOG'] or
    ['X2_REOG'] goes to [ecg]; otherwise a name that contains ['CM'] goes
    to [reference]; any other name goes to [eeg].  Each list is the
    sub-list of the channels that satisfy its rule, in their original
    order; together the three lists are a rearrangement of the channels,
    and every channel is in exactly one of them.  On
    [X1_LEOG, X2_REOG, CM_ref, Fp1] the result is
    ECG = [X1_LEOG, X2_REOG], Reference = [CM_ref], EEG = [Fp1]. *)
Theorem categorize_channels_partition (self : EEGPlotter) :
  let cc := categorize_channels self in
  let ocular c := contains (u "X1_LEOG") c \/ contains (u "X2_REOG") c in
  (ecg cc = filter is_ecg (channels self)
   /\ reference cc = filter is_ref_only (channels self)
   /\ eeg cc = filter is_eeg (channels self))
  /\ (forall c, In c (ecg cc) <-> In c (channels self) /\ ocular c)
  /\ (forall c, In c (reference cc) <->
                In c (channels self) /\ ~ ocular c /\ contains (u "CM") c)
  /\ (forall c, In c (eeg cc) <->
                In c (channels self) /\ ~ ocular c /\ ~ contains (u "CM") c)
  /\ Permutation (ecg cc ++ reference cc ++ eeg cc) (channels self)
  /\ (forall c, In c (channels self) ->
        (In c (ecg cc) /\ ~ In c (reference cc) /\ ~ In c (eeg cc))
        \/ (~ In c (ecg cc) /\ In c (reference cc) /\ ~ In c (eeg cc))
        \/ (~ In c (ecg cc) /\ ~ In c (reference cc) /\ In c (eeg cc)))
  /\ categorize_channels
       {| csv_file := u "rec.csv"; data := None;
          channels := map u ["X1_LEOG"; "X2_REOG"; "CM_ref"; "Fp1"]%string;
          sample_rate := PInt 200 |}
     = {| eeg := [u "Fp1"];
          ecg := [u "X1_LEOG"; u "X2_REOG"];
          reference := [u "CM_ref"] |}.
Proof.
  intros cc ocular; subst cc ocular.
  rewrite (categorize_channels_filter self); cbn [eeg ecg reference].
  assert (Hecg : forall c, In c (filter is_ecg (channels self)) <->
            In c (channels self)
            /\ (contains (u "X1_LEOG") c \/ contains (u "X2_REOG") c)).
  { intro c; rewrite filter_In, is_ecg_spec; reflexivity. }
  assert (Href : forall c, In c (filter is_ref_only (channels self)) <->
            In c (channels self)
            /\ ~ (contains (u "X1_LEOG") c \/ contains (u "X2_REOG") c)
            /\ contains (u "CM") c).
  { intro c; rewrite filter_In, is_ref_only_spec; reflexivity. }
  assert (Heeg : forall c, In c (filter is_eeg (channels self)) <->
            In c (channels self)
            /\ ~ (contains (u "X1_LEOG") c \/ contains (u "X2_REOG") c)
            /\ ~ contains (u "CM") c).
  { intro c; rewrite filter_In, is_eeg_spec; reflexivity. }
  split; [auto | ].
  split; [exact Hecg | ].
  split; [exact Href | ].
  split; [exact Heeg | ].
  split; [apply three_way_permutation | ].
  split; [ | reflexivity].
  intros c Hc; rewrite !filter_In; unfold is_ref_only, is_eeg.
  destruct (is_ecg c), (is_reference c); cbn [negb andb];
    intuition congruence.
Qed.

(** ** The scan of [parse_eeg_csv] *)

Lemma is_header_spec (raw : str) :
  is_header (strip raw) = true <-> header_shaped raw.
Proof.
  unfold is_header, header_shaped.
  rewrite orb_true_iff, !startswith_spec; split.
  - intros [(r & E) | (r & E)].
    + exists 44, r; split; [left; reflexivity | exact E].
    + exists 9, r; split; [right; reflexivity | rewrite E, <- app_assoc; reflexivity].
  - intros (c & r & [-> | ->] & E).
    + left; exists r; exact E.
    + right; exists r; rewrite E, <- app_assoc; reflexivity.
Qed.

Lemma is_header_false (raw : str) :
  is_header (strip raw) = false <-> ~ header_shaped raw.
Proof.
  rewrite <- is_header_spec; destruct (is_header (strip raw)); split;
    intros H; try reflexivity; try discriminate; try (intros E; discriminate).
  exfalso; apply H; reflexivity.
Qed.

Lemma scan_lines_cons (i : Z) (raw : str) (rest : list str) (sr : pyobj)
    (md : dict) :
  scan_lines i (raw :: rest) sr md =
  if is_header (strip raw)
  then (i, fst (scan_sample_rate (strip raw) sr md),
           snd (scan_sample_rate (strip raw) sr md))
  else scan_lines (i + 1) rest (fst (scan_sample_rate (strip raw) sr md))
                               (snd (scan_sample_rate (strip raw) sr md)).
Proof.
  cbn [scan_lines]; destruct (scan_sample_rate (strip raw) sr md); reflexivity.
Qed.

(** The scan stops at the first header-shaped line, or runs to the end. *)
Lemma scan_lines_first (lines : list str) :
  forall (i : Z) (sr : pyobj) (md : dict),
  (header_line_idx (scan_lines i lines sr md) = (-1)%Z
   /\ forall raw, In raw lines -> ~ header_shaped raw)
  \/ (exists (k : nat) (raw : str),
        header_line_idx (scan_lines i lines sr md) = (i + Z.of_nat k)%Z
        /\ nth_error lines k = Some raw /\ header_shaped raw
        /\ forall j raw', (j < k)%nat -> nth_error lines j = Some raw' ->
                          ~ header_shaped raw').
Proof.
  induction lines as [|raw rest IH]; intros i sr md.
  - left; split; [reflexivity | intros raw []].
  - rewrite scan_lines_cons.
    destruct (is_header (strip raw)) eqn:E.
    + right; exists O, raw; cbn [header_line_idx fst nth_error].
      split; [lia | split; [reflexivity | split]].
      * apply is_header_spec; exact E.
      * intros j raw' Hj; lia.
    + apply is_header_false in E.
      destruct (IH (i + 1)%Z (fst (scan_sample_rate (strip raw) sr md))
                   (snd (scan_sample_rate (strip raw) sr md)))
        as [(H1 & H2) | (k & raw0 & H1 & H2 & H3 & H4)].
      * left; split; [exact H1 | ].
        intros r [<- | Hr]; [exact E | apply H2; exact Hr].
      * right; exists (S k), raw0; split; [rewrite H1; lia | ].
        split; [exact H2 | split; [exact H3 | ]].
        intros [|j] raw' Hj Hn; cbn [nth_error] in Hn.
        -- inversion Hn; subst; exact E.
        -- apply (H4 j); [lia | exact Hn].
Qed.

Lemma scan_lines_index_iff (lines : list str) (sr : pyobj) (md : dict)
    (k : nat) :
  header_line_idx (scan_lines 0 lines sr md) = Z.of_nat k <->
  (exists raw, nth_error lines k = Some raw /\ header_shaped raw)
  /\ (forall j raw, (j < k)%nat -> nth_error lines j = Some raw ->
                    ~ header_shaped raw).
Proof.
  destruct (scan_lines_first lines 0%Z sr md)
    as [(H1 & H2) | (k' & raw & H1 & H2 & H3 & H4)]; rewrite H1.
  - split; [lia | ].
    intros ((raw & Hn & Hs) & _); exfalso.
    apply (H2 raw); [eapply nth_error_In; exact Hn | exact Hs].
  - split.
    + intros E; assert (k' = k) by lia; subst k'.
      split; [exists raw; auto | exact H4].
    + intros ((raw0 & Hn & Hs) & Hmin).
      destruct (Nat.lt_trichotomy k k') as [L | [-> | L]].
      * exfalso; apply (H4 k raw0 L Hn); exact Hs.
      * lia.
      * exfalso; apply (Hmin k' raw L H2); exact H3.
Qed.

Lemma scan_lines_none_iff (lines : list str) (sr : pyobj) (md : dict) :
  header_line_idx (scan_lines 0 lines sr md) = (-1)%Z <->
  forall raw, In raw lines -> ~ header_shaped raw.
Proof.
  destruct (scan_lines_first lines 0%Z sr md)
    as [(H1 & H2) | (k' & raw & H1 & H2 & H3 & H4)]; rewrite H1.
  - split; [intros _; exact H2 | reflexivity].
  - split; [lia | ].
    intros H; exfalso; apply (H raw); [eapply nth_error_In; exact H2 | exact H3].
Qed.

(** C2.  A line is taken as the header exactly when, once trimmed, it is
    ['Time'] followed at once by a comma or a tab; the scan returns the
    index of the first such line (and -1 exactly when there is none).
    On the lines [junk], [Sample_Frequency_(Hz),256],
    [Time,C1,C2,Trigger], [0,1,2,3] the header index is 2 and the sample
    rate is the float 256.0. *)
Theorem header_discovery :
  (forall raw, is_header (strip raw) = true <-> header_shaped raw)
  /\ (forall lines sr md (k : nat),
        header_line_idx (scan_lines 0 lines sr md) = Z.of_nat k <->
        (exists raw, nth_error lines k = Some raw /\ header_shaped raw)
        /\ (forall j raw, (j < k)%nat -> nth_error lines j = Some raw ->
                          ~ header_shaped raw))
  /\ (forall lines sr md,
        header_line_idx (scan_lines 0 lines sr md) = (-1)%Z <->
        forall raw, In raw lines -> ~ header_shaped raw)
  /\ (exists f256,
        float_of_int 256 = Ok f256
        /\ let lines := map u ["junk"; "Sample_Frequency_(Hz),256";
                               "Time,C1,C2,Trigger"; "0,1,2,3"]%string in
           let self := __init__ (u "rec.csv") in
           let r := scan_lines 0 lines (sample_rate self) [] in
           header_line_idx r = 2%Z
           /\ scanned_rate r = PFloat f256
           /\ parse_eeg_csv example_read_csv lines self =
              (Ok [(u "sample_rate", PFloat f256)],
               {| csv_file := u "rec.csv";
                  data := Some {| columns := map u ["Time"; "C1"; "C2";
                                                    "Trigger"]%string;
                                  values := [] |};
                  channels := [u "C1"; u "C2"];
                  sample_rate := PFloat f256 |})).
Proof.
  split; [exact is_header_spec | ].
  split; [exact scan_lines_index_iff | ].
  split; [exact scan_lines_none_iff | ].
  eexists; split; [vm_compute; reflexivity | ].
  vm_compute; repeat split; reflexivity.
Qed.

(** ** Trimming and substrings *)

Lemma rstrip_by_cons (p : char -> bool) (c : char) (s : str) :
  (rstrip_by p (c :: s) = [] /\ p c = true /\ rstrip_by p s = [])
  \/ rstrip_by p (c :: s) = c :: rstrip_by p s.
Proof.
  cbn [rstrip_by]; destruct (rstrip_by p s) eqn:E.
  - destruct (p c); [left; auto | right; reflexivity].
  - right; reflexivity.
Qed.

Section TrimmedSubstring.

Variable p : char -> bool.

(** A word that neither starts nor ends with a trimmed character. *)
Variable sub : str.
Variable x : char.
Variable sub' : str.
Hypothesis sub_first : sub = x :: sub'.
Hypothesis first_kept : p x = false.
Hypothesis last_kept : forall q c, sub = q ++ [c] -> p c = false.

Lemma startswith_rstrip_by (s w : str) :
  (forall q c, w = q ++ [c] -> p c = false) ->
  startswith (rstrip_by p s) w = startswith s w.
Proof.
  revert w; induction s as [|c s IH]; intros w Hw; [reflexivity | ].
  destruct w as [|y w]; [reflexivity | ].
  assert (Hw' : forall q c0, w = q ++ [c0] -> p c0 = false).
  { intros q c0 E; apply (Hw (y :: q)); rewrite E; reflexivity. }
  destruct (rstrip_by_cons p c s) as [(E & Hc & Es) | E]; rewrite E.
  - cbn [startswith]; symmetry.
    destruct (N.eqb_spec y c) as [-> | N]; [ | reflexivity].
    rewrite <- (IH w Hw'), Es; destruct w as [|z w]; [ | reflexivity].
    rewrite (Hw [] c eq_refl) in Hc; discriminate.
  - cbn [startswith]; rewrite (IH w Hw'); reflexivity.
Qed.

Lemma str_in_lstrip_by (s : str) :
  str_in sub (lstrip_by p s) = str_in sub s.
Proof.
  induction s as [|c s IH]; [reflexivity | ].
  cbn [lstrip_by]; destruct (p c) eqn:Hc; [ | reflexivity].
  rewrite IH; cbn [str_in]; rewrite sub_first; cbn [startswith].
  destruct (N.eqb_spec x c) as [-> | N]; [congruence | reflexivity].
Qed.

Lemma str_in_nil : str_in sub [] = false.
Proof. rewrite sub_first; reflexivity. Qed.

Lemma str_in_rstrip_by (s : str) :
  str_in sub (rstrip_by p s) = str_in sub s.
Proof.
  induction s as [|c s IH]; [reflexivity | ].
  pose proof (startswith_rstrip_by (c :: s) sub last_kept) as Hs.
  destruct (rstrip_by_cons p c s) as [(E & Hc & Es) | E]; rewrite E in *.
  - cbn [str_in]; rewrite <- Hs, <- IH, Es, str_in_nil.
    rewrite sub_first; reflexivity.
  - cbn [str_in]; rewrite Hs, IH; reflexivity.
Qed.

End TrimmedSubstring.

Lemma label_in_strip (raw : str) :
  str_in (u "Sample_Frequency_(Hz)") (strip raw)
  = str_in (u "Sample_Frequency_(Hz)") raw.
Proof.
  set (label := u "Sample_Frequency_(Hz)").
  assert (E : label = 83 :: tl label) by (vm_compute; reflexivity).
  assert (F : isspace 83 = false) by (vm_compute; reflexivity).
  assert (L : forall q c, label = q ++ [c] -> isspace c = false).
  { intros q c H.
    assert (c = last label 0) by (rewrite H, last_last; reflexivity).
    subst c; vm_compute; reflexivity. }
  unfold strip.
  rewrite (str_in_rstrip_by isspace label 83 (tl label) E L).
  exact (str_in_lstrip_by isspace label 83 (tl label) E F raw).
Qed.

(** ** The sample rate *)

Lemma scan_sample_rate_unlabelled (line : str) (sr : pyobj) (md : dict) :
  str_in (u "Sample_Frequency_(Hz)") line = false ->
  scan_sample_rate line sr md = (sr, md).
Proof. intros H; unfold scan_sample_rate; rewrite H; reflexivity. Qed.

Lemma scan_sample_rate_fst (line : str) (sr : pyobj) (md md' : dict) :
  fst (scan_sample_rate line sr md) = fst (scan_sample_rate line sr md').
Proof.
  unfold scan_sample_rate.
  destruct (str_in _ line); [ | reflexivity].
  destruct (nth_error _ 1) as [field|]; [ | reflexivity].
  destruct (py_float field); reflexivity.
Qed.

Lemma scan_lines_unlabelled (lines : list str) :
  forall (i : Z) (sr : pyobj) (md : dict),
  (forall raw, In raw lines -> ~ contains (u "Sample_Frequency_(Hz)") raw) ->
  scanned_rate (scan_lines i lines sr md) = sr
  /\ scanned_metadata (scan_lines i lines sr md) = md.
Proof.
  induction lines as [|raw rest IH]; intros i sr md H; [split; reflexivity | ].
  rewrite scan_lines_cons, scan_sample_rate_unlabelled.
  - cbn [fst snd]; destruct (is_header (strip raw)); [split; reflexivity | ].
    apply IH; intros r Hr; apply H; right; exact Hr.
  - rewrite label_in_strip.
    destruct (str_in _ raw) eqn:E; [ | reflexivity].
    exfalso; apply (H raw); [left; reflexivity | apply str_in_spec; exact E].
Qed.

(** Without a header the scan has read every line. *)
Lemma scan_lines_all (lines : list str) :
  forall (i : Z) (sr : pyobj) (md : dict),
  (forall raw, In raw lines -> ~ header_shaped raw) ->
  scanned_rate (scan_lines i lines sr md)
  = fold_left (fun r raw => fst (scan_sample_rate (strip raw) r [])) lines sr.
Proof.
  induction lines as [|raw rest IH]; intros i sr md H; [reflexivity | ].
  rewrite scan_lines_cons.
  assert (E : is_header (strip raw) = false)
    by (apply is_header_false, H; left; reflexivity).
  rewrite E, IH by (intros r Hr; apply H; right; exact Hr).
  cbn [fold_left]; rewrite (scan_sample_rate_fst _ _ md []); reflexivity.
Qed.

Lemma parse_eeg_csv_sample_rate (read_csv : list str -> Z -> result DataFrame)
    (lines : list str) (self : EEGPlotter) :
  sample_rate (snd (parse_eeg_csv read_csv lines self))
  = scanned_rate (scan_lines 0 lines (sample_rate self) []).
Proof.
  unfold parse_eeg_csv, scanned_rate.
  destruct (scan_lines 0 lines (sample_rate self) []) as [[idx sr] md].
  cbn [fst snd]; destruct (idx =? -1)%Z; [reflexivity | ].
  destruct (read_csv lines idx); reflexivity.
Qed.

Lemma parse_eeg_csv_no_header (read_csv : list str -> Z -> result DataFrame)
    (lines : list str) (self : EEGPlotter) :
  header_line_idx (scan_lines 0 lines (sample_rate self) []) = (-1)%Z ->
  parse_eeg_csv read_csv lines self =
  (Raise (ValueError (u "Could not find header line starting with 'Time'")),
   {| csv_file := csv_file self; data := data self; channels := channels self;
      sample_rate := scanned_rate (scan_lines 0 lines (sample_rate self) []) |}).
Proof.
  unfold parse_eeg_csv, header_line_idx, scanned_rate.
  destruct (scan_lines 0 lines (sample_rate self) []) as [[idx sr] md].
  cbn [fst snd]; intros ->; reflexivity.
Qed.

(** C6.  When no line of the file is header-shaped, [parse_eeg_csv]
    raises [ValueError] ("Could not find header line ...") once the scan
    has read every line (the sample rate is the one obtained from all of
    them), and it does so before [self.data] or [self.channels] is
    assigned: both are as they were, so [self.data] of a fresh object is
    still [None]. *)
Theorem missing_header_is_fatal
    (read_csv : list str -> Z -> result DataFrame) (lines : list str) :
  (forall raw, In raw lines -> ~ header_shaped raw) ->
  (forall self,
     fst (parse_eeg_csv read_csv lines self)
     = Raise (ValueError (u "Could not find header line starting with 'Time'"))
     /\ data (snd (parse_eeg_csv read_csv lines self)) = data self
     /\ channels (snd (parse_eeg_csv read_csv lines self)) = channels self
     /\ sample_rate (snd (parse_eeg_csv read_csv lines self))
        = fold_left (fun r raw => fst (scan_sample_rate (strip raw) r []))
                    lines (sample_rate self))
  /\ (forall csv,
        data (snd (parse_eeg_csv read_csv lines (__init__ csv))) = None).
Proof.
  intros H.
  assert (G : forall self,
             parse_eeg_csv read_csv lines self =
             (Raise (ValueError
                       (u "Could not find header line starting with 'Time'")),
              {| csv_file := csv_file self; data := data self;
                 channels := channels self;
                 sample_rate :=
                   scanned_rate (scan_lines 0 lines (sample_rate self) []) |})).
  { intros self; apply parse_eeg_csv_no_header, scan_lines_none_iff, H. }
  split.
  - intros self; rewrite (G self); cbn [fst snd data channels sample_rate].
    repeat split; apply scan_lines_all, H.
  - intros csv; rewrite (G (__init__ csv)); reflexivity.
Qed.

Lemma missing_header_is_fatal_witness :
  (forall raw,
     In raw (map u ["junk"; "Sample_Frequency_(Hz),256"; "0,1,2,3"]%string) ->
     ~ header_shaped raw)
  /\ fst (parse_eeg_csv example_read_csv
            (map u ["junk"; "Sample_Frequency_(Hz),256"; "0,1,2,3"]%string)
            (__init__ (u "rec.csv")))
     = Raise (ValueError (u "Could not find header line starting with 'Time'"))
  /\ data (snd (parse_eeg_csv example_read_csv
                  (map u ["junk"; "Sample_Frequency_(Hz),256";
                          "0,1,2,3"]%string)
                  (__init__ (u "rec.csv")))) = None.
Proof.
  assert (H : forall raw,
            In raw (map u ["junk"; "Sample_Frequency_(Hz),256";
                           "0,1,2,3"]%string) ->
            ~ header_shaped raw).
  { intros raw Hin; apply is_header_false.
    cbn [map In] in Hin.
    destruct Hin as [<- | [<- | [<- | []]]]; vm_compute; reflexivity. }
  split; [exact H | ].
  destruct (missing_header_is_fatal example_read_csv _ H) as [G1 G2].
  split; [apply (G1 (__init__ (u "rec.csv"))) | apply G2].
Defined.

(** C7.  The sample rate is read on a best-effort basis.  Where no line
    of the file contains the label ['Sample_Frequency_(Hz)'], the rate is
    left as it was, which for a fresh object is the integer 200, equal as
    a number to the float 200.0.  Where a line contains the label but its
    second comma-separated field is not a float, nothing is raised: the
    rate and the metadata keep their values and the scan goes on. *)
Theorem sample_rate_best_effort :
  (forall read_csv lines,
     (forall raw, In raw lines -> ~ contains (u "Sample_Frequency_(Hz)") raw) ->
     (forall self,
        sample_rate (snd (parse_eeg_csv read_csv lines self))
        = sample_rate self)
     /\ (forall csv,
           sample_rate (snd (parse_eeg_csv read_csv lines (__init__ csv)))
           = PInt 200))
  /\ num_eqb (PInt 200) (json_float "200.0") = true
  /\ (forall raw field sr md,
        contains (u "Sample_Frequency_(Hz)") raw ->
        nth_error (split 44 (strip raw)) 1 = Some field ->
        py_float field = None ->
        scan_sample_rate (strip raw) sr md = (sr, md)
        /\ forall i rest,
             scan_lines i (raw :: rest) sr md =
             if is_header (strip raw) then (i, sr, md)
             else scan_lines (i + 1) rest sr md).
Proof.
  split; [ | split; [vm_compute; reflexivity | ]].
  - intros read_csv lines H.
    assert (G : forall self,
               sample_rate (snd (parse_eeg_csv read_csv lines self))
               = sample_rate self).
    { intros self; rewrite parse_eeg_csv_sample_rate.
      apply scan_lines_unlabelled, H. }
    split; [exact G | intros csv; rewrite G; reflexivity].
  - intros raw field sr md _ Hf Hp.
    assert (E : scan_sample_rate (strip raw) sr md = (sr, md)).
    { unfold scan_sample_rate; rewrite Hf, Hp.
      destruct (str_in _ (strip raw)); reflexivity. }
    split; [exact E | ].
    intros i rest; rewrite scan_lines_cons, E; reflexivity.
Qed.

Lemma sample_rate_best_effort_witness :
  (forall raw, In raw (map u ["junk"; "Time,C1,C2"; "0,1,2"]%string) ->
               ~ contains (u "Sample_Frequency_(Hz)") raw)
  /\ sample_rate (snd (parse_eeg_csv example_read_csv
                         (map u ["junk"; "Time,C1,C2"; "0,1,2"]%string)
                         (__init__ (u "rec.csv")))) = PInt 200
  /\ contains (u "Sample_Frequency_(Hz)") (u " Sample_Frequency_(Hz),fast,1 ")
  /\ nth_error (split 44 (strip (u " Sample_Frequency_(Hz),fast,1 "))) 1
     = Some (u "fast")
  /\ py_float (u "fast") = None
  /\ scan_sample_rate (strip (u " Sample_Frequency_(Hz),fast,1 "))
                      (json_float "256") []
     = (json_float "256", []).
Proof.
  assert (H : forall raw,
            In raw (map u ["junk"; "Time,C1,C2"; "0,1,2"]%string) ->
            ~ contains (u "Sample_Frequency_(Hz)") raw).
  { intros raw Hin C; apply str_in_spec in C; revert C.
    cbn [map In] in Hin.
    destruct Hin as [<- | [<- | [<- | []]]]; vm_compute; discriminate. }
  assert (C : contains (u "Sample_Frequency_(Hz)")
                       (u " Sample_Frequency_(Hz),fast,1 "))
    by (apply str_in_spec; vm_compute; reflexivity).
  destruct sample_rate_best_effort as (T1 & _ & T3).
  split; [exact H | ].
  split; [apply (proj2 (T1 example_read_csv _ H)) | ].
  split; [exact C | ].
  split; [vm_compute; reflexivity | ].
  split; [vm_compute; reflexivity | ].
  apply (T3 _ (u "fast") _ _ C); vm_compute; reflexivity.
Defined.

(** ** The columns kept by [parse_eeg_csv] *)

Lemma keep_column_false (col : str) :
  keep_column col = false <->
  strip col = [] \/ col = u "Time" \/ In col exclude_cols.
Proof.
  unfold keep_column.
  rewrite !andb_false_iff, !negb_false_iff, str_eqb_eq, list_in_In.
  cbn [truthy]; destruct (strip col); split; intros H.
  - left; reflexivity.
  - right; reflexivity.
  - destruct H as [[H | H] | H]; [right; left | right; right | discriminate];
      exact H.
  - destruct H as [H | [H | H]]; [discriminate | left; left | left; right];
      exact H.
Qed.

Lemma keep_column_true (col : str) :
  keep_column col = true <->
  ~ (strip col = [] \/ col = u "Time" \/ In col exclude_cols).
Proof.
  rewrite <- keep_column_false; destruct (keep_column col); split; intros H;
    try reflexivity; try discriminate; try (intros E; discriminate).
  exfalso; apply H; reflexivity.
Qed.

Lemma parse_eeg_csv_ok (read_csv : list str -> Z -> result DataFrame)
    (lines : list str) (self self' : EEGPlotter) (md : dict) :
  parse_eeg_csv read_csv lines self = (Ok md, self') ->
  exists df,
    data self' = Some df
    /\ channels self' = filter keep_column (columns df).
Proof.
  unfold parse_eeg_csv.
  destruct (scan_lines 0 lines (sample_rate self) []) as [[idx sr] m].
  destruct (idx =? -1)%Z; [discriminate | ].
  destruct (read_csv lines idx) as [df | e]; [ | discriminate].
  intros E; inversion E; subst; cbn [data channels].
  eexists; split; reflexivity.
Qed.

Lemma in_categories (self : EEGPlotter) (c : str) :
  In c (eeg (categorize_channels self))
  \/ In c (ecg (categorize_channels self))
  \/ In c (reference (categorize_channels self))
  <-> In c (channels self).
Proof.
  rewrite categorize_channels_filter; cbn [eeg ecg reference].
  rewrite !filter_In; unfold is_eeg, is_ref_only.
  destruct (is_ecg c), (is_reference c); cbn [negb andb]; intuition congruence.
Qed.

(** C3, as the code has it.  After a successful [parse_eeg_csv], a column
    of the frame reaches none of the three category lists if and only if
    its trimmed name is empty, or it is ['Time'], or its name is equal to
    one of the eight names of [exclude_cols]; every other column is kept
    in [self.channels] and classified. *)
Theorem column_exclusion_by_name
    (read_csv : list str -> Z -> result DataFrame) (lines : list str)
    (self self' : EEGPlotter) (md : dict) :
  parse_eeg_csv read_csv lines self = (Ok md, self') ->
  exists df,
    data self' = Some df
    /\ forall col, In col (columns df) ->
         ((~ In col (eeg (categorize_channels self'))
           /\ ~ In col (ecg (categorize_channels self'))
           /\ ~ In col (reference (categorize_channels self')))
          <-> (strip col = [] \/ col = u "Time" \/ In col exclude_cols))
         /\ (In col (channels self')
             <-> ~ (strip col = [] \/ col = u "Time" \/ In col exclude_cols)).
Proof.
  intros E; destruct (parse_eeg_csv_ok _ _ _ _ _ E) as (df & Hd & Hc).
  exists df; split; [exact Hd | ].
  intros col Hin.
  assert (K : In col (channels self') <-> keep_column col = true).
  { rewrite Hc, filter_In; tauto. }
  pose proof (in_categories self' col) as P.
  destruct (keep_column col) eqn:Hk.
  - assert (Hch : In col (channels self')) by (apply K; reflexivity).
    pose proof (proj1 (keep_column_true col) Hk) as T.
    split; [ | tauto].
    split; [intros (A & B & C); exfalso; tauto | intros D; exfalso; tauto].
  - assert (Hch : ~ In col (channels self'))
      by (intros D; apply K in D; discriminate).
    pose proof (proj1 (keep_column_false col) Hk) as F.
    split; [ | tauto].
    split; [intros _; exact F | intros _; tauto].
Qed.

Lemma column_exclusion_by_name_witness :
  exists df,
    data (snd (parse_eeg_csv example_read_csv
                 (map u ["Time,C1,Trigger,Comments"; "0,1,2,x"]%string)
                 (__init__ (u "rec.csv")))) = Some df
    /\ forall col, In col (columns df) ->
         ((~ In col (eeg (categorize_channels
                 (snd (parse_eeg_csv example_read_csv
                    (map u ["Time,C1,Trigger,Comments"; "0,1,2,x"]%string)
                    (__init__ (u "rec.csv"))))))
           /\ ~ In col (ecg (categorize_channels
                 (snd (parse_eeg_csv example_read_csv
                    (map u ["Time,C1,Trigger,Comments"; "0,1,2,x"]%string)
                    (__init__ (u "rec.csv"))))))
           /\ ~ In col (reference (categorize_channels
                 (snd (parse_eeg_csv example_read_csv
                    (map u ["Time,C1,Trigger,Comments"; "0,1,2,x"]%string)
                    (__init__ (u "rec.csv")))))))
          <-> (strip col = [] \/ col = u "Time" \/ In col exclude_cols))
         /\ (In col (channels
                 (snd (parse_eeg_csv example_read_csv
                    (map u ["Time,C1,Trigger,Comments"; "0,1,2,x"]%string)
                    (__init__ (u "rec.csv")))))
             <-> ~ (strip col = [] \/ col = u "Time" \/ In col exclude_cols)).
Proof.
  apply (column_exclusion_by_name example_read_csv
           (map u ["Time,C1,Trigger,Comments"; "0,1,2,x"]%string)
           (__init__ (u "rec.csv")) _ [] ).
  vm_compute; reflexivity.
Defined.

(** C3, as stated, fails: the column [Trigger_1] contains the fragment
    ['Trigger'] of the exclusion list, is not empty and is not the time
    column, yet it is kept and classified as an EEG channel. *)
Lemma fragment_exclusion_counterexample :
  contains (u "Trigger") (u "Trigger_1")
  /\ In (u "Trigger") exclude_cols
  /\ columns_of (snd (parse_eeg_csv example_read_csv
                        (map u ["Time,Fp1,Trigger_1,Trigger"; "0,1,2,3"]%string)
                        (__init__ (u "rec.csv"))))
     = map u ["Time"; "Fp1"; "Trigger_1"; "Trigger"]%string
  /\ eeg (categorize_channels
            (snd (parse_eeg_csv example_read_csv
                    (map u ["Time,Fp1,Trigger_1,Trigger"; "0,1,2,3"]%string)
                    (__init__ (u "rec.csv")))))
     = [u "Fp1"; u "Trigger_1"].
Proof.
  split; [exists [], (u "_1"); reflexivity | ].
  split; [left; reflexivity | ].
  split; vm_compute; reflexivity.
Qed.

(** ** The selection callback *)

Lemma dict_get_key (k : str) (d : dict) :
  existsb (fun kv => str_eqb k (fst kv)) d = false <-> dict_get k d = None.
Proof.
  induction d as [|[k' v] d IH]; cbn [existsb dict_get fst]; [tauto | ].
  destruct (str_eqb k k'); cbn [orb]; [split; discriminate | exact IH].
Qed.

Lemma update_output_falsy (selected_data : pyobj) :
  truthy selected_data = false ->
  update_output selected_data = Ok (Some (u "No region selected.")).
Proof. intros H; unfold update_output; rewrite H; reflexivity. Qed.

Lemma update_output_no_range (d : dict) :
  d <> [] -> dict_get (u "range") d = None ->
  update_output (PDict d) = Ok None.
Proof.
  intros Hd Hg; unfold update_output.
  assert (T : truthy (PDict d) = true) by (destruct d; [congruence | reflexivity]).
  rewrite T; cbn [negb py_in bind].
  apply dict_get_key in Hg; rewrite Hg; reflexivity.
Qed.

Lemma update_output_no_x (d r : dict) :
  dict_get (u "range") d = Some (PDict r) -> dict_get (u "x") r = None ->
  update_output (PDict d) = Ok None.
Proof.
  intros Hg Hx; unfold update_output.
  assert (T : truthy (PDict d) = true) by (destruct d; [discriminate | reflexivity]).
  rewrite T; cbn [negb py_in bind getitem].
  destruct (existsb _ d); [ | reflexivity].
  rewrite Hg; cbn [bind py_in].
  apply dict_get_key in Hx; rewrite Hx; reflexivity.
Qed.

Lemma update_output_range (d r : dict) (a b : float) :
  dict_get (u "range") d = Some (PDict r) ->
  dict_get (u "x") r = Some (PList [PFloat a; PFloat b]) ->
  update_output (PDict d) =
  Ok (Some (u "Selected time window: " ++ float_format_2f a ++ u "–"
            ++ float_format_2f b ++ u " seconds")).
Proof.
  intros Hg Hx; unfold update_output.
  assert (T : truthy (PDict d) = true) by (destruct d; [discriminate | reflexivity]).
  rewrite T; cbn [negb py_in bind getitem].
  destruct (existsb _ d) eqn:E1;
    [ | apply dict_get_key in E1; congruence].
  rewrite Hg; cbn [bind py_in].
  destruct (existsb _ r) eqn:E2;
    [ | apply dict_get_key in E2; congruence].
  cbn [getitem]; rewrite Hx; reflexivity.
Qed.

(** C4, on the code.  The callback answers ["No region selected."] to an
    absent or empty event, and the formatted window to an event with a
    range over [x]; but to an event that is not empty and has no [range]
    key, or whose range has no [x] key, it answers nothing at all: it
    falls off its end and returns [None]. *)
Theorem update_output_returns_none :
  update_output PNone = Ok (Some (u "No region selected."))
  /\ update_output (PDict []) = Ok (Some (u "No region selected."))
  /\ update_output
       (PDict [(u "range",
                PDict [(u "x", PList [json_float "1.005";
                                      json_float "2.004"])])])
     = Ok (Some (u "Selected time window: 1.00–2.00 seconds"))
  /\ update_output (PDict [(u "points", PList [])]) = Ok None
  /\ update_output
       (PDict [(u "points", PList []);
               (u "range", PDict [(u "x2", PList [json_float "1.005";
                                                  json_float "2.004"]);
                                  (u "y2", PList [json_float "-3.5";
                                                  json_float "7.25"])])])
     = Ok None
  /\ (forall d, d <> [] -> dict_get (u "range") d = None ->
                update_output (PDict d) = Ok None)
  /\ (forall d r, dict_get (u "range") d = Some (PDict r) ->
                  dict_get (u "x") r = None ->
                  update_output (PDict d) = Ok None).
Proof.
  split; [reflexivity | ].
  split; [reflexivity | ].
  split; [vm_compute; reflexivity | ].
  split; [vm_compute; reflexivity | ].
  split; [vm_compute; reflexivity | ].
  split; [exact update_output_no_range | exact update_output_no_x].
Qed.

(** ** The layout builder *)

Lemma channels_to_plot_pos (self : EEGPlotter) (p : positive) :
  channels_to_plot self (Some (Zpos p))
  = firstn (Pos.to_nat p) (ordered_channels self).
Proof. reflexivity. Qed.

Lemma channels_to_plot_neg (self : EEGPlotter) (p : positive) :
  channels_to_plot self (Some (Zneg p))
  = firstn (List.length (ordered_channels self) - Pos.to_nat p)
           (ordered_channels self).
Proof.
  unfold channels_to_plot, slice_to; cbn [truthy Z.eqb negb Z.leb Z.compare].
  f_equal; lia.
Qed.

Lemma ordered_channels_permutation (self : EEGPlotter) :
  Permutation (ordered_channels self) (channels self).
Proof.
  unfold ordered_channels; rewrite categorize_channels_filter.
  cbn [eeg ecg reference].
  rewrite Permutation_app_comm, <- app_assoc.
  apply three_way_permutation.
Qed.

Lemma add_traces_raises (df : DataFrame) (cc : categories) (chs : list str) :
  forall (i : Z) (e : exn),
  add_traces df cc i chs = Raise e -> e = KeyError (u "Time").
Proof.
  induction chs as [|c chs IH]; intros i e; cbn [add_traces]; [discriminate | ].
  destruct (list_in c (columns df)); [ | apply IH].
  destruct (list_in (u "Time") (columns df)); [ | intros E; inversion E; reflexivity].
  destruct (add_traces df cc (i + 1) chs) eqn:E; cbn [bind]; [discriminate | ].
  intros E'; inversion E'; subst; apply (IH _ _ E).
Qed.

Lemma add_traces_total (df : DataFrame) (cc : categories) (chs : list str) :
  In (u "Time") (columns df) ->
  forall i, exists r, add_traces df cc i chs = Ok r.
Proof.
  intros Ht; apply list_in_In in Ht.
  induction chs as [|c chs IH]; intros i; cbn [add_traces]; [eexists; reflexivity | ].
  destruct (IH (i + 1)%Z) as (r & E).
  destruct (list_in c (columns df)); [ | exists r; exact E].
  rewrite Ht, E; cbn [bind]; eexists; reflexivity.
Qed.

(** Every trace carries the colour of its row, and the name found at its
    row in the list of plotted channels. *)
Lemma add_traces_rows (df : DataFrame) (cc : categories) (chs : list str) :
  forall (i : Z) (r : list Trace * list YAxis),
  add_traces df cc i chs = Ok r ->
  forall t, In t (fst r) ->
    (i < tr_row t <= i + Z.of_nat (List.length chs))%Z
    /\ tr_color t
       = nth (Z.to_nat ((tr_row t - 1) mod Z.of_nat (List.length colors)))
             colors []
    /\ nth_error chs (Z.to_nat (tr_row t - 1 - i)) = Some (tr_name t).
Proof.
  induction chs as [|c chs IH]; intros i r; cbn [add_traces].
  - intros E; inversion E; subst; intros t [].
  - assert (Step : forall r', add_traces df cc (i + 1) chs = Ok r' ->
              forall t, In t (fst r') ->
                (i < tr_row t <= i + Z.of_nat (List.length (c :: chs)))%Z
                /\ tr_color t
                   = nth (Z.to_nat ((tr_row t - 1)
                                    mod Z.of_nat (List.length colors)))
                         colors []
                /\ nth_error (c :: chs) (Z.to_nat (tr_row t - 1 - i))
                   = Some (tr_name t)).
    { intros r' E t Ht; destruct (IH _ _ E t Ht) as (A & B & C).
      cbn [List.length]; split; [lia | split; [exact B | ]].
      replace (Z.to_nat (tr_row t - 1 - i))
        with (S (Z.to_nat (tr_row t - 1 - (i + 1)))) by lia.
      exact C. }
    destruct (list_in c (columns df)); [ | exact (Step r)].
    destruct (list_in (u "Time") (columns df)); [ | discriminate].
    destruct (add_traces df cc (i + 1) chs) as [r' | e] eqn:E; cbn [bind];
      [ | discriminate].
    intros E'; inversion E'; subst; cbn [fst]; intros t [<- | Ht].
    + cbn [tr_row tr_color tr_name List.length].
      split; [lia | split].
      * replace (i + 1 - 1)%Z with i by lia; reflexivity.
      * replace (Z.to_nat (i + 1 - 1 - i)) with O by lia; reflexivity.
    + exact (Step r' eq_refl t Ht).
Qed.

Lemma make_subplots_cases (rows : Z) :
  (make_subplots rows = Ok tt /\ (rows <= 67)%Z)
  \/ (make_subplots rows = Raise (ValueError spacing_message)
      /\ (68 <= rows)%Z).
Proof.
  unfold make_subplots.
  destruct (Z.leb_spec rows 1); [left; split; [reflexivity | lia] | ].
  destruct (Z.ltb_spec 1000 (15 * (rows - 1))%Z);
    [right | left]; split; try reflexivity; lia.
Qed.

Lemma make_subplots_ok (rows : Z) :
  (rows <= 67)%Z -> make_subplots rows = Ok tt.
Proof.
  intros H; destruct (make_subplots_cases rows) as [(E & _) | (_ & G)];
    [exact E | lia].
Qed.

Lemma make_subplots_raises (rows : Z) :
  (68 <= rows)%Z -> make_subplots rows = Raise (ValueError spacing_message).
Proof.
  intros H; destruct (make_subplots_cases rows) as [(_ & G) | (E & _)];
    [lia | exact E].
Qed.

Lemma spacing_message_differs :
  spacing_message <> u "No valid channels found to plot".
Proof. vm_compute; discriminate. Qed.

Lemma create_interactive_plot_empty (self : EEGPlotter) (cap : option Z) :
  channels_to_plot self cap = [] ->
  create_interactive_plot self cap
  = Raise (ValueError (u "No valid channels found to plot")).
Proof. intros E; unfold create_interactive_plot; rewrite E; reflexivity. Qed.

Lemma create_interactive_plot_nonempty (self : EEGPlotter) (cap : option Z) :
  channels_to_plot self cap <> [] ->
  create_interactive_plot self cap =
  _ <- make_subplots (Z.of_nat (List.length (channels_to_plot self cap))) ;;
  match data self with
  | None => Raise AttributeError
  | Some df =>
      r <- add_traces df (categorize_channels self) 0
                      (channels_to_plot self cap) ;;
      Ok {| fig_rows := Z.of_nat (List.length (channels_to_plot self cap));
            fig_subplot_titles :=
              map (subplot_title (categorize_channels self))
                  (channels_to_plot self cap);
            fig_traces := fst r;
            fig_yaxes := snd r;
            fig_height :=
              150 * Z.of_nat (List.length (channels_to_plot self cap)) + 100;
            fig_dragmode := u "pan";
            fig_matches_x :=
              map Z.of_nat
                  (seq 2 (List.length (channels_to_plot self cap) - 1));
            fig_time_label_row :=
              Z.of_nat (List.length (channels_to_plot self cap)) |}
  end%Z.
Proof.
  intros N; unfold create_interactive_plot.
  destruct (channels_to_plot self cap) as [|c chs] eqn:E; [congruence | ].
  reflexivity.
Qed.

Lemma create_interactive_plot_raises_empty (self : EEGPlotter)
    (cap : option Z) :
  create_interactive_plot self cap
  = Raise (ValueError (u "No valid channels found to plot"))
  <-> channels_to_plot self cap = [].
Proof.
  split; [ | apply create_interactive_plot_empty].
  destruct (channels_to_plot self cap) as [|c chs] eqn:E; [reflexivity | ].
  rewrite create_interactive_plot_nonempty by (rewrite E; discriminate).
  destruct (make_subplots_cases
              (Z.of_nat (List.length (channels_to_plot self cap))))
    as [(M & _) | (M & _)]; rewrite M; cbn [bind].
  - destruct (data self) as [df|]; [ | discriminate].
    destruct (add_traces df _ 0 _) as [r | e] eqn:A; cbn [bind];
      [discriminate | ].
    apply add_traces_raises in A; subst e; discriminate.
  - intros G; exfalso; apply spacing_message_differs.
    assert (I : forall a b, @Raise Figure (ValueError a) = Raise (ValueError b)
                            -> a = b) by (intros a b H; congruence).
    exact (I _ _ G).
Qed.

Lemma create_interactive_plot_ok (self : EEGPlotter) (cap : option Z)
    (fig : Figure) :
  create_interactive_plot self cap = Ok fig ->
  channels_to_plot self cap <> []
  /\ fig_rows fig = Z.of_nat (List.length (channels_to_plot self cap))
  /\ fig_height fig
     = (150 * Z.of_nat (List.length (channels_to_plot self cap)) + 100)%Z
  /\ fig_subplot_titles fig
     = map (subplot_title (categorize_channels self))
           (channels_to_plot self cap)
  /\ exists df r,
       data self = Some df
       /\ add_traces df (categorize_channels self) 0
                     (channels_to_plot self cap) = Ok r
       /\ fig_traces fig = fst r.
Proof.
  intros E.
  assert (N : channels_to_plot self cap <> []).
  { intros C; rewrite (create_interactive_plot_empty _ _ C) in E; discriminate. }
  rewrite (create_interactive_plot_nonempty _ _ N) in E.
  destruct (make_subplots_cases
              (Z.of_nat (List.length (channels_to_plot self cap))))
    as [(M & _) | (M & _)]; rewrite M in E; cbn [bind] in E;
    [ | discriminate].
  destruct (data self) as [df|]; [ | discriminate].
  destruct (add_traces df _ 0 _) as [r | e] eqn:A; cbn [bind] in E;
    [ | discriminate].
  inversion E; subst; cbn.
  repeat split; try assumption.
  exists df, r; repeat split; assumption.
Qed.

Lemma create_interactive_plot_rows_bound (self : EEGPlotter)
    (cap : option Z) (fig : Figure) :
  create_interactive_plot self cap = Ok fig ->
  (1 <= List.length (channels_to_plot self cap) <= 67)%nat.
Proof.
  intros E.
  assert (N : channels_to_plot self cap <> []).
  { intros C; rewrite (create_interactive_plot_empty _ _ C) in E; discriminate. }
  rewrite (create_interactive_plot_nonempty _ _ N) in E.
  destruct (make_subplots_cases
              (Z.of_nat (List.length (channels_to_plot self cap))))
    as [(_ & B) | (M & _)]; [ | rewrite M in E; discriminate].
  destruct (channels_to_plot self cap); [congruence | cbn in *; lia].
Qed.

Lemma create_interactive_plot_too_many (self : EEGPlotter) (cap : option Z) :
  (68 <= List.length (channels_to_plot self cap))%nat ->
  create_interactive_plot self cap = Raise (ValueError spacing_message).
Proof.
  intros L.
  assert (N : channels_to_plot self cap <> []).
  { destruct (channels_to_plot self cap); [cbn in L; lia | discriminate]. }
  rewrite (create_interactive_plot_nonempty _ _ N).
  rewrite make_subplots_raises by lia; reflexivity.
Qed.

Lemma create_interactive_plot_total (self : EEGPlotter) (cap : option Z)
    (df : DataFrame) :
  data self = Some df -> In (u "Time") (columns df) ->
  channels_to_plot self cap <> [] ->
  (List.length (channels_to_plot self cap) <= 67)%nat ->
  exists fig, create_interactive_plot self cap = Ok fig.
Proof.
  intros Hd Ht N L; rewrite (create_interactive_plot_nonempty _ _ N).
  rewrite make_subplots_ok by lia; cbn [bind]; rewrite Hd.
  destruct (add_traces_total df (categorize_channels self)
              (channels_to_plot self cap) Ht 0%Z) as (r & E).
  rewrite E; cbn [bind]; eexists; reflexivity.
Qed.



(** C10.  A cap of 0 is falsy in [if max_channels], so it selects what
    [None] selects: every channel, in EEG, ECG, Reference order.  With at
    least one channel the selection is not empty and the error for an
    empty selection is not raised. *)
Theorem zero_cap_selects_all (self : EEGPlotter) :
  channels self <> [] ->
  channels_to_plot self (Some 0%Z) = ordered_channels self
  /\ channels_to_plot self (Some 0%Z) = channels_to_plot self None
  /\ Permutation (channels_to_plot self (Some 0%Z)) (channels self)
  /\ List.length (channels_to_plot self (Some 0%Z))
     = List.length (channels self)
  /\ create_interactive_plot self (Some 0%Z)
     <> Raise (ValueError (u "No valid channels found to plot")).
Proof.
  intros N.
  change (channels_to_plot self (Some 0%Z)) with (ordered_channels self).
  pose proof (ordered_channels_permutation self) as P.
  split; [reflexivity | ].
  split; [reflexivity | ].
  split; [exact P | ].
  split; [apply Permutation_length, P | ].
  intros E; apply create_interactive_plot_raises_empty in E.
  change (channels_to_plot self (Some 0%Z)) with (ordered_channels self) in E.
  rewrite E in P; apply Permutation_nil in P; exact (N P).
Qed.

Lemma zero_cap_selects_all_witness :
  channels (loaded (map u ["Time"; "CM"; "Fp1"; "Trigger"]%string)) <> []
  /\ channels_to_plot (loaded (map u ["Time"; "CM"; "Fp1"; "Trigger"]%string))
                      (Some 0%Z)
     = ordered_channels (loaded (map u ["Time"; "CM"; "Fp1"; "Trigger"]%string))
  /\ create_interactive_plot
       (loaded (map u ["Time"; "CM"; "Fp1"; "Trigger"]%string)) (Some 0%Z)
     <> Raise (ValueError (u "No valid channels found to plot")).
Proof.
  assert (N : channels (loaded (map u ["Time"; "CM"; "Fp1"; "Trigger"]%string))
              <> []) by (vm_compute; discriminate).
  destruct (zero_cap_selects_all _ N) as (A & _ & _ & _ & B).
  split; [exact N | split; [exact A | exact B]].
Defined.

(** C9.  A figure that is built has height [150 * n_channels + 100],
    where [n_channels] is the number of plotted channels (the number of
    rows).  A figure is built whenever between 1 and 67 channels are
    selected and the frame has its ['Time'] column; with 68 or more,
    [make_subplots] raises [ValueError] and no height is computed.  Five
    channels give the height 850. *)
Theorem canvas_height :
  (forall self cap fig,
     create_interactive_plot self cap = Ok fig ->
     fig_rows fig = Z.of_nat (List.length (channels_to_plot self cap))
     /\ fig_height fig = (150 * fig_rows fig + 100)%Z)
  /\ (forall self cap df,
        data self = Some df -> In (u "Time") (columns df) ->
        channels_to_plot self cap <> [] ->
        (List.length (channels_to_plot self cap) <= 67)%nat ->
        exists fig,
          create_interactive_plot self cap = Ok fig
          /\ fig_height fig
             = (150 * Z.of_nat (List.length (channels_to_plot self cap))
                + 100)%Z)
  /\ (forall self cap,
        (68 <= List.length (channels_to_plot self cap))%nat ->
        exists msg, create_interactive_plot self cap = Raise (ValueError msg))
  /\ (exists fig,
        create_interactive_plot (loaded (u "Time" :: numbered "C" 5))
                                default_max_channels = Ok fig
        /\ fig_rows fig = 5%Z
        /\ fig_height fig = 850%Z).
Proof.
  split; [ | split; [ | split]].
  - intros self cap fig E.
    destruct (create_interactive_plot_ok _ _ _ E) as (_ & A & B & _).
    split; [exact A | rewrite A; exact B].
  - intros self cap df Hd Ht N L.
    destruct (create_interactive_plot_total self cap df Hd Ht N L) as (fig & E).
    exists fig; split; [exact E | ].
    destruct (create_interactive_plot_ok _ _ _ E) as (_ & _ & B & _); exact B.
  - intros self cap L; exists spacing_message.
    apply create_interactive_plot_too_many, L.
  - eexists; split; [vm_compute; reflexivity | ].
    split; vm_compute; reflexivity.
Qed.

(** ** Trace colours *)

(** The traces depend on the plotted channels and on the column labels
    only: neither the categories nor the cells of the frame enter. *)
Lemma add_traces_fst_ext (df1 df2 : DataFrame) (cc1 cc2 : categories)
    (chs : list str) :
  columns df1 = columns df2 ->
  forall i r1 r2,
    add_traces df1 cc1 i chs = Ok r1 -> add_traces df2 cc2 i chs = Ok r2 ->
    fst r1 = fst r2.
Proof.
  intros Hc; induction chs as [|c chs IH]; intros i r1 r2; cbn [add_traces].
  - intros E1 E2; inversion E1; inversion E2; reflexivity.
  - rewrite <- Hc.
    destruct (list_in c (columns df1)); [ | apply IH].
    destruct (list_in (u "Time") (columns df1)); [ | discriminate].
    destruct (add_traces df1 cc1 (i + 1) chs) as [a1 | e1] eqn:A1;
      cbn [bind]; [ | discriminate].
    destruct (add_traces df2 cc2 (i + 1) chs) as [a2 | e2] eqn:A2;
      cbn [bind]; [ | discriminate].
    intros E1 E2; inversion E1; inversion E2; cbn [fst].
    rewrite (IH _ _ _ A1 A2); reflexivity.
Qed.

Lemma trace_of_figure (self : EEGPlotter) (cap : option Z) (fig : Figure)
    (t : Trace) :
  create_interactive_plot self cap = Ok fig -> In t (fig_traces fig) ->
  (1 <= tr_row t <= fig_rows fig)%Z
  /\ tr_color t
     = nth (Z.to_nat ((tr_row t - 1) mod Z.of_nat (List.length colors)))
           colors []
  /\ nth_error (channels_to_plot self cap) (Z.to_nat (tr_row t - 1))
     = Some (tr_name t).
Proof.
  intros E Ht.
  destruct (create_interactive_plot_ok _ _ _ E)
    as (_ & A & _ & _ & df & r & _ & R & F).
  rewrite F in Ht.
  destruct (add_traces_rows _ _ _ _ _ R t Ht) as (B & C & D).
  split; [rewrite A; lia | split; [exact C | ]].
  replace (tr_row t - 1)%Z with (tr_row t - 1 - 0)%Z by lia; exact D.
Qed.

(** C8.  The palette is Set1 followed by Set2, seventeen colours in all.
    The colour of a trace is the palette entry at [(row - 1)] modulo the
    palette length, where [row] is the 1-based position of its channel
    among the plotted channels: it depends on the position alone.  Hence
    traces on the same row of any two figures have the same colour, and
    two builds over the same plotted channels and column labels produce
    the same traces, whatever else differs between the two objects.
    With eighteen channels the eighteenth takes the first colour again. *)
Theorem trace_color_by_row :
  (colors = Set1 ++ Set2
   /\ List.length Set1 = 9%nat /\ List.length Set2 = 8%nat
   /\ (17 <= List.length colors)%nat)
  /\ (forall self cap fig t,
        create_interactive_plot self cap = Ok fig -> In t (fig_traces fig) ->
        (1 <= tr_row t <= fig_rows fig)%Z
        /\ tr_color t
           = nth (Z.to_nat ((tr_row t - 1) mod Z.of_nat (List.length colors)))
                 colors []
        /\ nth_error (channels_to_plot self cap) (Z.to_nat (tr_row t - 1))
           = Some (tr_name t))
  /\ (forall s1 c1 f1 t1 s2 c2 f2 t2,
        create_interactive_plot s1 c1 = Ok f1 -> In t1 (fig_traces f1) ->
        create_interactive_plot s2 c2 = Ok f2 -> In t2 (fig_traces f2) ->
        tr_row t1 = tr_row t2 -> tr_color t1 = tr_color t2)
  /\ (forall s1 c1 f1 s2 c2 f2,
        create_interactive_plot s1 c1 = Ok f1 ->
        create_interactive_plot s2 c2 = Ok f2 ->
        channels_to_plot s1 c1 = channels_to_plot s2 c2 ->
        columns_of s1 = columns_of s2 ->
        fig_traces f1 = fig_traces f2)
  /\ (exists fig,
        create_interactive_plot (loaded (u "Time" :: numbered "C" 18)) None
        = Ok fig
        /\ map tr_row (fig_traces fig) = map Z.of_nat (seq 1 18)
        /\ map tr_color (fig_traces fig) = colors ++ [u "rgb(228,26,28)"]).
Proof.
  split; [repeat split; vm_compute; lia | ].
  split; [exact trace_of_figure | ].
  split; [ | split].
  - intros s1 c1 f1 t1 s2 c2 f2 t2 E1 H1 E2 H2 R.
    destruct (trace_of_figure _ _ _ _ E1 H1) as (_ & C1 & _).
    destruct (trace_of_figure _ _ _ _ E2 H2) as (_ & C2 & _).
    rewrite C1, C2, R; reflexivity.
  - intros s1 c1 f1 s2 c2 f2 E1 E2 Hch Hcol.
    destruct (create_interactive_plot_ok _ _ _ E1)
      as (_ & _ & _ & _ & df1 & r1 & D1 & R1 & F1).
    destruct (create_interactive_plot_ok _ _ _ E2)
      as (_ & _ & _ & _ & df2 & r2 & D2 & R2 & F2).
    unfold columns_of in Hcol; rewrite D1, D2 in Hcol.
    rewrite Hch in R1; rewrite F1, F2.
    exact (add_traces_fst_ext _ _ _ _ _ Hcol _ _ _ R1 R2).
  - eexists; split; [vm_compute; reflexivity | ].
    split; vm_compute; reflexivity.
Qed.

(* ================================================================= *)
(** * Further properties of the code *)

(** ** The metadata returned by [parse_eeg_csv] *)

(** The state of the scan: nothing read yet, or the last float read,
    recorded under ['sample_rate']. *)
Lemma scan_sample_rate_metadata (line : str) (sr0 sr : pyobj) (md : dict) :
  (md = [] /\ sr = sr0)
  \/ (exists f, sr = PFloat f /\ md = [(u "sample_rate", PFloat f)]) ->
  (snd (scan_sample_rate line sr md) = []
   /\ fst (scan_sample_rate line sr md) = sr0)
  \/ (exists f, fst (scan_sample_rate line sr md) = PFloat f
                /\ snd (scan_sample_rate line sr md)
                   = [(u "sample_rate", PFloat f)]).
Proof.
  intros H; unfold scan_sample_rate.
  destruct (str_in _ line); [ | exact H].
  destruct (nth_error _ 1) as [field|]; [ | exact H].
  destruct (py_float field) as [f|]; [ | exact H].
  right; exists f; split; [reflexivity | ].
  destruct H as [(-> & _) | (g & _ & ->)]; reflexivity.
Qed.

Lemma scan_lines_metadata (lines : list str) (sr0 : pyobj) :
  forall (i : Z) (sr : pyobj) (md : dict),
  (md = [] /\ sr = sr0)
  \/ (exists f, sr = PFloat f /\ md = [(u "sample_rate", PFloat f)]) ->
  (scanned_metadata (scan_lines i lines sr md) = []
   /\ scanned_rate (scan_lines i lines sr md) = sr0)
  \/ (exists f, scanned_rate (scan_lines i lines sr md) = PFloat f
                /\ scanned_metadata (scan_lines i lines sr md)
                   = [(u "sample_rate", PFloat f)]).
Proof.
  induction lines as [|raw rest IH]; intros i sr md H.
  - destruct H as [(-> & ->) | (f & -> & ->)];
      [left; split; reflexivity | right; exists f; split; reflexivity].
  - rewrite scan_lines_cons.
    pose proof (scan_sample_rate_metadata (strip raw) sr0 sr md H) as S.
    destruct (is_header (strip raw)); [ | apply IH; tauto].
    destruct S as [(A & B) | (f & A & B)];
      [left; split; assumption | right; exists f; split; assumption].
Qed.

Lemma parse_eeg_csv_ok_scan (read_csv : list str -> Z -> result DataFrame)
    (lines : list str) (self self' : EEGPlotter) (md : dict) :
  parse_eeg_csv read_csv lines self = (Ok md, self') ->
  md = scanned_metadata (scan_lines 0 lines (sample_rate self) [])
  /\ sample_rate self' = scanned_rate (scan_lines 0 lines (sample_rate self) [])
  /\ csv_file self' = csv_file self
  /\ exists raw,
       read_csv lines (header_line_idx
                         (scan_lines 0 lines (sample_rate self) [])) = Ok raw
       /\ data self' = Some {| columns := map clean_column (columns raw);
                                values := values raw |}
       /\ channels self'
          = filter keep_column (map clean_column (columns raw)).
Proof.
  unfold parse_eeg_csv, scanned_metadata, scanned_rate, header_line_idx.
  destruct (scan_lines 0 lines (sample_rate self) []) as [[idx sr] m].
  cbn [fst snd]; destruct (idx =? -1)%Z; [discriminate | ].
  destruct (read_csv lines idx) as [df | e] eqn:R; [ | discriminate].
  intros E; inversion E; subst; cbn [sample_rate csv_file data channels].
  repeat split; exists df; repeat split; reflexivity.
Qed.

(** X1.  The dictionary returned by a successful [parse_eeg_csv] agrees
    with the object: it is empty and the sample rate was left alone, or
    its only item is ['sample_rate'] with the float now held in
    [self.sample_rate]. *)
Theorem metadata_agrees_with_sample_rate
    (read_csv : list str -> Z -> result DataFrame) (lines : list str)
    (self self' : EEGPlotter) (md : dict) :
  parse_eeg_csv read_csv lines self = (Ok md, self') ->
  (md = [] /\ sample_rate self' = sample_rate self)
  \/ (exists f, md = [(u "sample_rate", PFloat f)]
                /\ sample_rate self' = PFloat f).
Proof.
  intros E; destruct (parse_eeg_csv_ok_scan _ _ _ _ _ E) as (-> & -> & _).
  destruct (scan_lines_metadata lines (sample_rate self) 0%Z
              (sample_rate self) []) as [(A & B) | (f & A & B)];
    [left; split; reflexivity | | ].
  - left; split; assumption.
  - right; exists f; split; assumption.
Qed.

Lemma metadata_agrees_with_sample_rate_witness :
  exists f,
    fst (parse_eeg_csv example_read_csv
           (map u ["Sample_Frequency_(Hz),500"; "Time,Fp1"; "0,1"]%string)
           (__init__ (u "rec.csv")))
    = Ok [(u "sample_rate", PFloat f)]
    /\ sample_rate (snd (parse_eeg_csv example_read_csv
           (map u ["Sample_Frequency_(Hz),500"; "Time,Fp1"; "0,1"]%string)
           (__init__ (u "rec.csv")))) = PFloat f.
Proof.
  destruct (metadata_agrees_with_sample_rate example_read_csv
              (map u ["Sample_Frequency_(Hz),500"; "Time,Fp1"; "0,1"]%string)
              (__init__ (u "rec.csv"))
              (snd (parse_eeg_csv example_read_csv
                 (map u ["Sample_Frequency_(Hz),500"; "Time,Fp1"; "0,1"]%string)
                 (__init__ (u "rec.csv"))))
              (scanned_metadata
                 (scan_lines 0
                    (map u ["Sample_Frequency_(Hz),500"; "Time,Fp1";
                            "0,1"]%string)
                    (PInt 200) []))
              ltac:(vm_compute; reflexivity)) as [(A & _) | (f & A & B)].
  - vm_compute in A; discriminate.
  - exists f; split; [rewrite <- A; vm_compute; reflexivity | exact B].
Defined.

(** ** Lines after the header *)

Lemma scan_lines_stops (pre : list str) (h : str) :
  header_shaped h ->
  forall (post post' : list str) (i : Z) (sr : pyobj) (md : dict),
  scan_lines i (pre ++ h :: post) sr md
  = scan_lines i (pre ++ h :: post') sr md.
Proof.
  intros H post post'; apply is_header_spec in H.
  induction pre as [|raw pre IH]; intros i sr md; cbn [app];
    rewrite !scan_lines_cons.
  - rewrite H; reflexivity.
  - destruct (is_header (strip raw)); [reflexivity | apply IH].
Qed.

(** X2.  The scan ends at the header: whatever follows the first
    header-shaped line (data rows, or a later [Sample_Frequency_(Hz)]
    line) changes neither the header index nor the sample rate nor the
    metadata, and so not the sample rate the object ends with. *)
Theorem lines_after_header_are_not_scanned
    (read_csv read_csv' : list str -> Z -> result DataFrame)
    (pre : list str) (h : str) (post post' : list str) (sr : pyobj)
    (md : dict) (self : EEGPlotter) :
  header_shaped h ->
  scan_lines 0 (pre ++ h :: post) sr md
  = scan_lines 0 (pre ++ h :: post') sr md
  /\ sample_rate (snd (parse_eeg_csv read_csv (pre ++ h :: post) self))
     = sample_rate (snd (parse_eeg_csv read_csv' (pre ++ h :: post') self)).
Proof.
  intros H; split; [apply scan_lines_stops, H | ].
  rewrite !parse_eeg_csv_sample_rate, (scan_lines_stops pre h H post post').
  reflexivity.
Qed.

Lemma lines_after_header_are_not_scanned_witness :
  header_shaped (u "Time,Fp1,Fp2")
  /\ sample_rate
       (snd (parse_eeg_csv example_read_csv
               ([u "Sample_Frequency_(Hz),250"] ++ u "Time,Fp1,Fp2"
                :: [u "Sample_Frequency_(Hz),999"; u "0,1,2"])
               (__init__ (u "rec.csv"))))
     = sample_rate
       (snd (parse_eeg_csv example_read_csv
               ([u "Sample_Frequency_(Hz),250"] ++ u "Time,Fp1,Fp2" :: [])
               (__init__ (u "rec.csv")))).
Proof.
  assert (H : header_shaped (u "Time,Fp1,Fp2"))
    by (apply is_header_spec; vm_compute; reflexivity).
  split; [exact H | ].
  apply (lines_after_header_are_not_scanned example_read_csv example_read_csv
           [u "Sample_Frequency_(Hz),250"] _ _ _ PNone [] _ H).
Defined.

(** ** Cleaned column names *)

Lemma In_lstrip_by (p : char -> bool) (c : char) (s : str) :
  In c (lstrip_by p s) -> In c s.
Proof.
  induction s as [|x s IH]; cbn [lstrip_by]; [tauto | ].
  destruct (p x); [intros H; right; apply IH, H | tauto].
Qed.

Lemma In_rstrip_by (p : char -> bool) (c : char) (s : str) :
  In c (rstrip_by p s) -> In c s.
Proof.
  induction s as [|x s IH]; [tauto | ].
  destruct (rstrip_by_cons p x s) as [(E & _) | E]; rewrite E.
  - intros [].
  - intros [-> | H]; [left; reflexivity | right; apply IH, H].
Qed.

Lemma lstrip_by_head (p : char -> bool) (s : str) :
  lstrip_by p s = []
  \/ exists c t, lstrip_by p s = c :: t /\ p c = false.
Proof.
  induction s as [|x s IH]; cbn [lstrip_by]; [left; reflexivity | ].
  destruct (p x) eqn:E; [exact IH | right; exists x, s; auto].
Qed.

Lemma rstrip_by_idem (p : char -> bool) (s : str) :
  rstrip_by p (rstrip_by p s) = rstrip_by p s.
Proof.
  induction s as [|x s IH]; [reflexivity | ].
  destruct (rstrip_by_cons p x s) as [(E & _) | E]; rewrite E; [reflexivity | ].
  destruct (rstrip_by_cons p x (rstrip_by p s)) as [(_ & Hx & E') | E'].
  - rewrite IH in E'; cbn [rstrip_by] in E; rewrite E', Hx in E; discriminate.
  - rewrite E', IH; reflexivity.
Qed.

Lemma strip_idem (s : str) : strip (strip s) = strip s.
Proof.
  unfold strip.
  destruct (lstrip_by_head isspace s) as [E | (c & t & E & Hc)]; rewrite E.
  - reflexivity.
  - destruct (rstrip_by_cons isspace c t) as [(_ & Hc' & _) | E'];
      [congruence | ].
    rewrite E'; cbn [lstrip_by]; rewrite Hc, <- E'.
    apply rstrip_by_idem.
Qed.

Lemma In_strip (c : char) (s : str) : In c (strip s) -> In c s.
Proof. intros H; apply (In_lstrip_by isspace), (In_rstrip_by isspace), H. Qed.

Lemma replace_colon (s : str) : ~ In 58 (replace (u ":") (u "_") s).
Proof.
  change (replace (u ":") (u "_") s) with (replace_go [58] [95] O s).
  induction s as [|c s IH]; [intros [] | ].
  cbn [replace_go startswith List.length Nat.sub].
  destruct (N.eqb_spec 58 c) as [<- | N]; cbn [andb app].
  - intros [H | H]; [discriminate | exact (IH H)].
  - intros [H | H]; [congruence | exact (IH H)].
Qed.

Lemma replace_go_absent (old new : str) (s : str) :
  str_in old s = false -> replace_go old new O s = s.
Proof.
  induction s as [|c s IH]; [reflexivity | ].
  cbn [str_in replace_go]; intros H; apply orb_false_iff in H.
  destruct H as [H1 H2]; rewrite H1, (IH H2); reflexivity.
Qed.

Lemma clean_column_no_colon (col : str) : ~ In 58 (clean_column col).
Proof.
  unfold clean_column; intros H; apply In_strip in H; exact (replace_colon _ H).
Qed.

Lemma clean_column_trimmed (col : str) :
  strip (clean_column col) = clean_column col.
Proof. unfold clean_column; apply strip_idem. Qed.

(** X3.  A cleaned column label has no colon left and no whitespace
    around it (trimming it again changes nothing); a label that had no
    ['**'], no colon and no surrounding whitespace is left as it was. *)
Theorem clean_column_normal_form (col : str) :
  ~ In 58 (clean_column col)
  /\ strip (clean_column col) = clean_column col
  /\ (~ contains (u "**") col -> ~ contains (u ":") col -> strip col = col ->
      clean_column col = col).
Proof.
  split; [apply clean_column_no_colon | split].
  - apply clean_column_trimmed.
  - unfold clean_column; intros H1 H2 H3.
    assert (A : str_in (u "**") col = false).
    { destruct (str_in (u "**") col) eqn:E; [ | reflexivity].
      exfalso; apply H1, str_in_spec, E. }
    assert (B : str_in (u ":") col = false).
    { destruct (str_in (u ":") col) eqn:E; [ | reflexivity].
      exfalso; apply H2, str_in_spec, E. }
    change (replace (u "**") [] col) with (replace_go (u "**") [] O col).
    rewrite (replace_go_absent _ _ _ A).
    change (replace (u ":") (u "_") col)
      with (replace_go (u ":") (u "_") O col).
    rewrite (replace_go_absent _ _ _ B); exact H3.
Qed.

(** ** The channels after a load *)

(** X4.  After a successful [parse_eeg_csv] the channels are the labels
    of the frame that pass the filter, in column order: each one is a
    column of [self.data], is not ['Time'], is none of the excluded
    names, is not empty, and is in cleaned form (no colon, nothing to
    trim); labels that are distinct stay distinct. *)
Theorem channels_after_load
    (read_csv : list str -> Z -> result DataFrame) (lines : list str)
    (self self' : EEGPlotter) (md : dict) :
  parse_eeg_csv read_csv lines self = (Ok md, self') ->
  channels self' = filter keep_column (columns_of self')
  /\ (NoDup (columns_of self') -> NoDup (channels self'))
  /\ forall c, In c (channels self') ->
       In c (columns_of self')
       /\ c <> u "Time" /\ ~ In c exclude_cols /\ c <> []
       /\ strip c = c /\ ~ In 58 c.
Proof.
  intros E; destruct (parse_eeg_csv_ok_scan _ _ _ _ _ E)
    as (_ & _ & _ & raw & _ & D & C).
  unfold columns_of; rewrite D; cbn [columns].
  split; [exact C | split; [rewrite C; apply NoDup_filter | ]].
  intros c Hc; rewrite C in Hc; apply filter_In in Hc.
  destruct Hc as (Hin & K).
  split; [exact Hin | ].
  apply in_map_iff in Hin; destruct Hin as (c0 & <- & _).
  pose proof (clean_column_no_colon c0) as A.
  pose proof (clean_column_trimmed c0) as B.
  apply keep_column_true in K.
  repeat split; try assumption; try tauto.
  intros Z; apply K; left; rewrite Z; reflexivity.
Qed.

Lemma channels_after_load_witness :
  channels (snd (parse_eeg_csv example_read_csv
                   (map u ["Time, **X1:LEOG** ,Fp1,Event, "; "0,1,2,3,4"]%string)
                   (__init__ (u "rec.csv"))))
  = filter keep_column
      (columns_of (snd (parse_eeg_csv example_read_csv
                   (map u ["Time, **X1:LEOG** ,Fp1,Event, "; "0,1,2,3,4"]%string)
                   (__init__ (u "rec.csv")))))
  /\ channels (snd (parse_eeg_csv example_read_csv
                   (map u ["Time, **X1:LEOG** ,Fp1,Event, "; "0,1,2,3,4"]%string)
                   (__init__ (u "rec.csv"))))
     = [u "X1_LEOG"; u "Fp1"].
Proof.
  split; [ | vm_compute; reflexivity].
  apply (channels_after_load example_read_csv
           (map u ["Time, **X1:LEOG** ,Fp1,Event, "; "0,1,2,3,4"]%string)
           (__init__ (u "rec.csv")) _ []).
  vm_compute; reflexivity.
Defined.

(** ** From the load to the figure *)

Lemma In_firstn_list (n : nat) (l : list str) (c : str) :
  In c (firstn n l) -> In c l.
Proof.
  intros H; rewrite <- (firstn_skipn n l); apply in_or_app; left; exact H.
Qed.

Lemma channels_to_plot_prefix (self : EEGPlotter) (cap : option Z) :
  exists n, channels_to_plot self cap = firstn n (ordered_channels self).
Proof.
  unfold channels_to_plot, slice_to.
  destruct cap as [k|]; [ | exists (List.length (ordered_channels self));
                           symmetry; apply firstn_all].
  destruct (truthy (PInt k)); [ | exists (List.length (ordered_channels self));
                                 symmetry; apply firstn_all].
  destruct (0 <=? k)%Z; eexists; reflexivity.
Qed.

Lemma channels_to_plot_incl (self : EEGPlotter) (cap : option Z) (c : str) :
  In c (channels_to_plot self cap) -> In c (channels self).
Proof.
  destruct (channels_to_plot_prefix self cap) as (n & ->); intros H.
  apply In_firstn_list in H.
  apply (Permutation_in _ (ordered_channels_permutation self)), H.
Qed.

(** When every channel is a column and the frame has its time column,
    the loop makes the trace and the y-axis of each channel, row by row. *)
Lemma add_traces_all (df : DataFrame) (cc : categories) (chs : list str) :
  In (u "Time") (columns df) ->
  (forall c, In c chs -> In c (columns df)) ->
  forall i, exists r,
    add_traces df cc i chs = Ok r
    /\ map tr_name (fst r) = chs
    /\ map tr_row (fst r)
       = map (fun k => (i + Z.of_nat k)%Z) (seq 1 (List.length chs))
    /\ snd r = map (fun t => yaxis_of cc (tr_name t) (tr_row t)) (fst r).
Proof.
  intros Ht; pose proof (proj2 (list_in_In _ _) Ht) as Ht'.
  induction chs as [|c chs IH]; intros Hc i; cbn [add_traces].
  - eexists; repeat split; reflexivity.
  - destruct (IH (fun x Hx => Hc x (or_intror Hx)) (i + 1)%Z)
      as (r & E & A & B & C).
    rewrite (proj2 (list_in_In _ _) (Hc c (or_introl eq_refl))), Ht', E.
    cbn [bind]; eexists; split; [reflexivity | ].
    cbn [fst snd map tr_name tr_row List.length seq].
    split; [rewrite A; reflexivity | split].
    + rewrite B; f_equal; try lia.
      rewrite <- (seq_shift _ 1), map_map.
      apply map_ext; intros k; lia.
    + rewrite C; reflexivity.
Qed.

Lemma add_traces_no_time (df : DataFrame) (cc : categories) (chs : list str) :
  ~ In (u "Time") (columns df) ->
  (forall c, In c chs -> In c (columns df)) -> chs <> [] ->
  forall i, add_traces df cc i chs = Raise (KeyError (u "Time")).
Proof.
  intros Ht Hc N i; destruct chs as [|c chs]; [congruence | ].
  cbn [add_traces].
  rewrite (proj2 (list_in_In _ _) (Hc c (or_introl eq_refl))).
  rewrite (proj2 (list_in_false _ _) Ht); reflexivity.
Qed.

Lemma channels_are_columns
    (read_csv : list str -> Z -> result DataFrame) (lines : list str)
    (self self' : EEGPlotter) (md : dict) :
  parse_eeg_csv read_csv lines self = (Ok md, self') ->
  forall c, In c (channels self') -> In c (columns_of self').
Proof.
  intros E c Hc; destruct (parse_eeg_csv_ok _ _ _ _ _ E) as (df & D & C).
  unfold columns_of; rewrite D; rewrite C in Hc.
  apply filter_In in Hc; tauto.
Qed.

(** X5.  After a successful load whose frame has a ['Time'] column,
    every build that selects between 1 and 67 channels succeeds and
    draws exactly one trace per plotted channel: the traces carry the
    plotted channels in order, on the rows 1, 2, ..., n, each with its
    own y-axis. *)
Theorem loaded_channels_are_all_drawn
    (read_csv : list str -> Z -> result DataFrame) (lines : list str)
    (self self' : EEGPlotter) (md : dict) (cap : option Z) :
  parse_eeg_csv read_csv lines self = (Ok md, self') ->
  In (u "Time") (columns_of self') ->
  channels_to_plot self' cap <> [] ->
  (List.length (channels_to_plot self' cap) <= 67)%nat ->
  exists fig,
    create_interactive_plot self' cap = Ok fig
    /\ map tr_name (fig_traces fig) = channels_to_plot self' cap
    /\ map tr_row (fig_traces fig)
       = map Z.of_nat (seq 1 (List.length (channels_to_plot self' cap)))
    /\ map ya_row (fig_yaxes fig) = map tr_row (fig_traces fig).
Proof.
  intros E Ht N L.
  pose proof (channels_are_columns _ _ _ _ _ E) as Hch.
  destruct (parse_eeg_csv_ok _ _ _ _ _ E) as (df & D & _).
  unfold columns_of in Ht, Hch; rewrite D in Ht, Hch.
  destruct (add_traces_all df (categorize_channels self')
              (channels_to_plot self' cap) Ht
              (fun c Hc => Hch c (channels_to_plot_incl _ _ _ Hc))
              0%Z) as (r & R & A & B & C).
  rewrite (create_interactive_plot_nonempty _ _ N).
  rewrite make_subplots_ok by lia; cbn [bind]; rewrite D, R; cbn [bind].
  eexists; split; [reflexivity | ].
  cbn [fig_traces fig_yaxes]; split; [exact A | split; [exact B | ]].
  rewrite C, map_map; apply map_ext_in; intros t _.
  unfold yaxis_of.
  destruct (list_in _ (ecg _)); [reflexivity | ].
  destruct (list_in _ (reference _)); reflexivity.
Qed.

Lemma loaded_channels_are_all_drawn_witness :
  exists fig,
    create_interactive_plot
      (snd (parse_eeg_csv example_read_csv
              (map u ["Time,CM,Fp1,X1:LEOG,Trigger"; "0,1,2,3,4"]%string)
              (__init__ (u "rec.csv")))) (Some 2%Z) = Ok fig
    /\ map tr_name (fig_traces fig) = [u "Fp1"; u "X1_LEOG"].
Proof.
  destruct (loaded_channels_are_all_drawn example_read_csv
              (map u ["Time,CM,Fp1,X1:LEOG,Trigger"; "0,1,2,3,4"]%string)
              (__init__ (u "rec.csv")) _ [] (Some 2%Z)
              ltac:(vm_compute; reflexivity)
              ltac:(vm_compute; tauto)
              ltac:(vm_compute; discriminate)
              ltac:(vm_compute; lia)) as (fig & E & A & _).
  exists fig; split; [exact E | rewrite A; vm_compute; reflexivity].
Defined.

(** X6.  The scanner accepts a header that starts with ['Time'] and a
    tab, but a frame without a column named ['Time'] cannot be plotted:
    after a successful load of such a frame every build that selects
    between 1 and 67 channels raises [KeyError('Time')] at its first
    trace. *)
Theorem no_time_column_is_a_key_error
    (read_csv : list str -> Z -> result DataFrame) (lines : list str)
    (self self' : EEGPlotter) (md : dict) (cap : option Z) :
  parse_eeg_csv read_csv lines self = (Ok md, self') ->
  ~ In (u "Time") (columns_of self') ->
  channels_to_plot self' cap <> [] ->
  (List.length (channels_to_plot self' cap) <= 67)%nat ->
  create_interactive_plot self' cap = Raise (KeyError (u "Time")).
Proof.
  intros E Ht N L.
  pose proof (channels_are_columns _ _ _ _ _ E) as Hch.
  destruct (parse_eeg_csv_ok _ _ _ _ _ E) as (df & D & _).
  unfold columns_of in Ht, Hch; rewrite D in Ht, Hch.
  rewrite (create_interactive_plot_nonempty _ _ N).
  rewrite make_subplots_ok by lia; cbn [bind]; rewrite D.
  rewrite (add_traces_no_time df _ _ Ht
             (fun c Hc => Hch c (channels_to_plot_incl _ _ _ Hc)) N).
  reflexivity.
Qed.

Lemma no_time_column_is_a_key_error_witness :
  header_line_idx
    (scan_lines 0 [u "Time" ++ [9] ++ u "Fp1" ++ [9] ++ u "Fp2"; u "0,1,2"]
                (PInt 200) []) = 0%Z
  /\ create_interactive_plot
       (snd (parse_eeg_csv example_read_csv
               [u "Time" ++ [9] ++ u "Fp1" ++ [9] ++ u "Fp2"; u "0,1,2"]
               (__init__ (u "rec.tsv")))) default_max_channels
     = Raise (KeyError (u "Time")).
Proof.
  split; [vm_compute; reflexivity | ].
  apply (no_time_column_is_a_key_error example_read_csv
           [u "Time" ++ [9] ++ u "Fp1" ++ [9] ++ u "Fp2"; u "0,1,2"]
           (__init__ (u "rec.tsv")) _ []).
  - vm_compute; reflexivity.
  - vm_compute; intros [H | []]; discriminate.
  - vm_compute; discriminate.
  - vm_compute; lia.
Defined.

(** ** Titles, axes and layout of a figure *)

Lemma create_interactive_plot_inv (self : EEGPlotter) (cap : option Z)
    (fig : Figure) :
  create_interactive_plot self cap = Ok fig ->
  channels_to_plot self cap <> []
  /\ exists df r,
       data self = Some df
       /\ add_traces df (categorize_channels self) 0
                     (channels_to_plot self cap) = Ok r
       /\ fig =
          {| fig_rows := Z.of_nat (List.length (channels_to_plot self cap));
             fig_subplot_titles :=
               map (subplot_title (categorize_channels self))
                   (channels_to_plot self cap);
             fig_traces := fst r;
             fig_yaxes := snd r;
             fig_height :=
               150 * Z.of_nat (List.length (channels_to_plot self cap)) + 100;
             fig_dragmode := u "pan";
             fig_matches_x :=
               map Z.of_nat
                   (seq 2 (List.length (channels_to_plot self cap) - 1));
             fig_time_label_row :=
               Z.of_nat (List.length (channels_to_plot self cap)) |}%Z.
Proof.
  intros E.
  assert (N : channels_to_plot self cap <> []).
  { intros C; rewrite (create_interactive_plot_empty _ _ C) in E; discriminate. }
  split; [exact N | ].
  rewrite (create_interactive_plot_nonempty _ _ N) in E.
  destruct (make_subplots_cases
              (Z.of_nat (List.length (channels_to_plot self cap))))
    as [(M & _) | (M & _)]; rewrite M in E; cbn [bind] in E;
    [ | discriminate].
  destruct (data self) as [df|]; [ | discriminate].
  destruct (add_traces df _ 0 _) as [r | e] eqn:A; cbn [bind] in E;
    [ | discriminate].
  exists df, r; inversion E; auto.
Qed.

Lemma list_in_filter (f : str -> bool) (l : list str) (c : str) :
  In c l -> list_in c (filter f l) = f c.
Proof.
  intros H; destruct (f c) eqn:E.
  - apply list_in_In, filter_In; auto.
  - apply list_in_false; intros G; apply filter_In in G.
    destruct G as [_ G]; congruence.
Qed.

Lemma subplot_title_by_markers (self : EEGPlotter) (ch : str) :
  In ch (channels self) ->
  subplot_title (categorize_channels self) ch = ch ++ title_suffix ch.
Proof.
  intros H; unfold subplot_title, title_suffix.
  rewrite categorize_channels_filter; cbn [eeg ecg reference].
  rewrite !(list_in_filter _ _ _ H); unfold is_ref_only.
  destruct (is_ecg ch), (is_reference ch); reflexivity.
Qed.

Lemma yaxis_of_by_markers (self : EEGPlotter) (ch : str) (row : Z) :
  In ch (channels self) ->
  ya_row (yaxis_of (categorize_channels self) ch row) = row
  /\ (ya_title (yaxis_of (categorize_channels self) ch row),
      ya_gridcolor (yaxis_of (categorize_channels self) ch row),
      ya_zerolinecolor (yaxis_of (categorize_channels self) ch row))
     = yaxis_style ch.
Proof.
  intros H; unfold yaxis_of, yaxis_style.
  rewrite categorize_channels_filter; cbn [eeg ecg reference].
  rewrite !(list_in_filter _ _ _ H); unfold is_ref_only.
  destruct (is_ecg ch), (is_reference ch); split; reflexivity.
Qed.

Lemma add_traces_yaxes (df : DataFrame) (cc : categories) (chs : list str) :
  forall (i : Z) (r : list Trace * list YAxis),
  add_traces df cc i chs = Ok r ->
  forall y, In y (snd r) ->
    exists ch row,
      (i < row <= i + Z.of_nat (List.length chs))%Z
      /\ nth_error chs (Z.to_nat (row - 1 - i)) = Some ch
      /\ y = yaxis_of cc ch row.
Proof.
  induction chs as [|c chs IH]; intros i r; cbn [add_traces].
  - intros E; inversion E; subst; intros y [].
  - assert (Step : forall r', add_traces df cc (i + 1) chs = Ok r' ->
              forall y, In y (snd r') ->
                exists ch row,
                  (i < row <= i + Z.of_nat (List.length (c :: chs)))%Z
                  /\ nth_error (c :: chs) (Z.to_nat (row - 1 - i)) = Some ch
                  /\ y = yaxis_of cc ch row).
    { intros r' E y Hy; destruct (IH _ _ E y Hy) as (ch & row & A & B & C).
      exists ch, row; cbn [List.length]; split; [lia | split; [ | exact C]].
      replace (Z.to_nat (row - 1 - i))
        with (S (Z.to_nat (row - 1 - (i + 1)))) by lia.
      exact B. }
    destruct (list_in c (columns df)); [ | exact (Step r)].
    destruct (list_in (u "Time") (columns df)); [ | discriminate].
    destruct (add_traces df cc (i + 1) chs) as [r' | e] eqn:E; cbn [bind];
      [ | discriminate].
    intros E'; inversion E'; subst; cbn [snd]; intros y [<- | Hy].
    + exists c, (i + 1)%Z; cbn [List.length].
      split; [lia | split; [ | reflexivity]].
      replace (Z.to_nat (i + 1 - 1 - i)) with O by lia; reflexivity.
    + exact (Step r' eq_refl y Hy).
Qed.

(** X7.  In a figure that is built, the title of each panel is the
    channel name followed by the suffix its markers call for (ECG for the
    ocular markers, else Reference for ['CM'], else EEG), and each y-axis
    has the title, grid colour and zero-line colour of the same rule,
    applied to the channel of its row. *)
Theorem panel_styling_follows_markers (self : EEGPlotter) (cap : option Z)
    (fig : Figure) :
  create_interactive_plot self cap = Ok fig ->
  fig_subplot_titles fig
  = map (fun ch => ch ++ title_suffix ch) (channels_to_plot self cap)
  /\ forall y, In y (fig_yaxes fig) ->
       exists ch,
         nth_error (channels_to_plot self cap) (Z.to_nat (ya_row y - 1))
         = Some ch
         /\ (1 <= ya_row y <= fig_rows fig)%Z
         /\ (ya_title y, ya_gridcolor y, ya_zerolinecolor y) = yaxis_style ch.
Proof.
  intros E; destruct (create_interactive_plot_inv _ _ _ E)
    as (_ & df & r & _ & R & ->); cbn [fig_subplot_titles fig_yaxes fig_rows].
  split.
  - apply map_ext_in; intros ch Hc.
    apply subplot_title_by_markers, (channels_to_plot_incl _ _ _ Hc).
  - intros y Hy; destruct (add_traces_yaxes _ _ _ _ _ R y Hy)
      as (ch & row & A & B & ->).
    assert (Hc : In ch (channels self)).
    { eapply channels_to_plot_incl, nth_error_In; exact B. }
    destruct (yaxis_of_by_markers self ch row Hc) as (Hr & Hs).
    exists ch; rewrite Hr.
    replace (row - 1)%Z with (row - 1 - 0)%Z by lia.
    split; [exact B | split; [lia | exact Hs]].
Qed.

Lemma panel_styling_follows_markers_witness :
  exists fig,
    create_interactive_plot
      (loaded (map u ["Time"; "X2_REOG"; "CM"; "Fp1"]%string)) None = Ok fig
    /\ fig_subplot_titles fig
       = [u "Fp1 (μV) - EEG"; u "X2_REOG (mV) - ECG"; u "CM (Reference)"].
Proof.
  assert (E : exists fig,
            create_interactive_plot
              (loaded (map u ["Time"; "X2_REOG"; "CM"; "Fp1"]%string)) None
            = Ok fig) by (eexists; vm_compute; reflexivity).
  destruct E as (fig & E); exists fig; split; [exact E | ].
  rewrite (proj1 (panel_styling_follows_markers _ _ _ E)).
  vm_compute; reflexivity.
Defined.

(** X8.  In a figure that is built there is at least one row; the
    x-axes declared to follow the first one are exactly those of the rows
    2, ..., n; the time label is on the last row; the drag mode is
    ['pan']. *)
Theorem x_axes_follow_the_first (self : EEGPlotter) (cap : option Z)
    (fig : Figure) :
  create_interactive_plot self cap = Ok fig ->
  (1 <= fig_rows fig)%Z
  /\ (forall row, In row (fig_matches_x fig) <-> (2 <= row <= fig_rows fig)%Z)
  /\ fig_time_label_row fig = fig_rows fig
  /\ fig_dragmode fig = u "pan".
Proof.
  intros E; destruct (create_interactive_plot_inv _ _ _ E)
    as (N & df & r & _ & _ & ->).
  cbn [fig_rows fig_matches_x fig_time_label_row fig_dragmode].
  assert (L : (1 <= List.length (channels_to_plot self cap))%nat).
  { destruct (channels_to_plot self cap); [congruence | cbn; lia]. }
  split; [lia | split; [ | split; reflexivity]].
  intros row; rewrite in_map_iff; split.
  - intros (k & <- & Hk); apply in_seq in Hk; lia.
  - intros H; exists (Z.to_nat row); split; [lia | apply in_seq; lia].
Qed.

Lemma x_axes_follow_the_first_witness :
  exists fig,
    create_interactive_plot (loaded (u "Time" :: numbered "C" 4)) None = Ok fig
    /\ fig_matches_x fig = [2; 3; 4]%Z
    /\ fig_time_label_row fig = fig_rows fig.
Proof.
  assert (E : exists fig,
            create_interactive_plot (loaded (u "Time" :: numbered "C" 4)) None
            = Ok fig) by (eexists; vm_compute; reflexivity).
  destruct E as (fig & E); exists fig; split; [exact E | ].
  split; [ | apply (x_axes_follow_the_first _ _ _ E)].
  vm_compute in E; inversion E; reflexivity.
Defined.

(** ** Errors of the selection callback *)

(** X9.  An event with a range over [x] must give exactly two numbers:
    when [range.x] is a list of another length the unpacking raises
    [ValueError], and when its first item is a string the formatting
    raises [ValueError]; the callback returns no message in either
    case. *)
Theorem update_output_bad_range (d r : dict) (l : list pyobj) :
  dict_get (u "range") d = Some (PDict r) ->
  dict_get (u "x") r = Some (PList l) ->
  (List.length l <> 2%nat \/ exists s b, l = [PStr s; b]) ->
  exists msg, update_output (PDict d) = Raise (ValueError msg).
Proof.
  intros Hg Hx Hl; unfold update_output.
  assert (T : truthy (PDict d) = true) by (destruct d; [discriminate | reflexivity]).
  rewrite T; cbn [negb py_in bind getitem].
  destruct (existsb _ d) eqn:E1;
    [ | apply dict_get_key in E1; congruence].
  rewrite Hg; cbn [bind py_in].
  destruct (existsb _ r) eqn:E2;
    [ | apply dict_get_key in E2; congruence].
  cbn [getitem]; rewrite Hx; cbn [bind].
  destruct Hl as [Hl | (s & b & ->)].
  - destruct l as [|a [|b [|c l]]]; cbn [unpack2 bind];
      try (eexists; reflexivity).
    exfalso; apply Hl; reflexivity.
  - cbn [unpack2 bind fst format_2f]; eexists; reflexivity.
Qed.

Lemma update_output_bad_range_witness :
  exists msg,
    update_output
      (PDict [(u "points", PList []);
              (u "range", PDict [(u "x", PList [json_float "1.5"])])])
    = Raise (ValueError msg).
Proof.
  apply (update_output_bad_range _ [(u "x", PList [json_float "1.5"])]
           [json_float "1.5"]).
  - reflexivity.
  - reflexivity.
  - left; cbn; discriminate.
Defined.

(** ** The cap at its bounds *)

(** X10.  A negative cap [-k] is a slice from the end: all channels but
    the last [k] are plotted, and when [k] is at least the number of
    channels nothing is selected and the builder raises the [ValueError]
    of an empty selection. *)
Theorem negative_cap_drops_the_last (self : EEGPlotter) (k : positive) :
  channels_to_plot self (Some (Zneg k))
  = firstn (List.length (channels self) - Pos.to_nat k) (ordered_channels self)
  /\ List.length (channels_to_plot self (Some (Zneg k)))
     = (List.length (channels self) - Pos.to_nat k)%nat
  /\ ((List.length (channels self) <= Pos.to_nat k)%nat ->
      create_interactive_plot self (Some (Zneg k))
      = Raise (ValueError (u "No valid channels found to plot"))).
Proof.
  pose proof (Permutation_length (ordered_channels_permutation self)) as L.
  rewrite channels_to_plot_neg, L.
  split; [reflexivity | split].
  - rewrite length_firstn, L; lia.
  - intros H; apply create_interactive_plot_empty.
    rewrite channels_to_plot_neg, L.
    replace (List.length (channels self) - Pos.to_nat k)%nat with O by lia.
    reflexivity.
Qed.

Lemma channels_to_plot_pos_length (self : EEGPlotter) (p : positive) :
  List.length (channels_to_plot self (Some (Zpos p)))
  = Nat.min (Pos.to_nat p) (List.length (channels self)).
Proof.
  rewrite channels_to_plot_pos, length_firstn.
  rewrite (Permutation_length (ordered_channels_permutation self)).
  reflexivity.
Qed.

(** X11.  A positive cap never plots more than there is: the number of
    plotted channels is the smaller of the cap and the number of
    channels, and a cap that is not below the number of channels plots
    them all. *)
Theorem positive_cap_is_a_bound (self : EEGPlotter) (p : positive) :
  List.length (channels_to_plot self (Some (Zpos p)))
  = Nat.min (Pos.to_nat p) (List.length (channels self))
  /\ ((List.length (channels self) <= Pos.to_nat p)%nat ->
      channels_to_plot self (Some (Zpos p)) = ordered_channels self).
Proof.
  pose proof (Permutation_length (ordered_channels_permutation self)) as L.
  rewrite channels_to_plot_pos; split.
  - rewrite length_firstn, L; reflexivity.
  - intros H; apply firstn_all2; lia.
Qed.

(** ** A plot after a failed load *)

(** X12.  When [parse_eeg_csv] fails on a fresh object (no header line,
    or the reader raises), the object has no data and no channels, and a
    plot requested from it raises the [ValueError] of an empty selection
    whatever the cap. *)
Theorem plot_after_failed_load
    (read_csv : list str -> Z -> result DataFrame) (lines : list str)
    (csv : str) (e : exn) (self' : EEGPlotter) (cap : option Z) :
  parse_eeg_csv read_csv lines (__init__ csv) = (Raise e, self') ->
  data self' = None /\ channels self' = []
  /\ create_interactive_plot self' cap
     = Raise (ValueError (u "No valid channels found to plot")).
Proof.
  unfold parse_eeg_csv.
  destruct (scan_lines 0 lines (sample_rate (__init__ csv)) [])
    as [[idx sr] m].
  assert (G : forall s, data s = None -> channels s = [] ->
            data s = None /\ channels s = []
            /\ create_interactive_plot s cap
               = Raise (ValueError (u "No valid channels found to plot"))).
  { intros s D C; split; [exact D | split; [exact C | ]].
    apply create_interactive_plot_empty.
    destruct (channels_to_plot_prefix s cap) as (n & ->).
    pose proof (Permutation_length (ordered_channels_permutation s)) as L.
    rewrite C in L; destruct (ordered_channels s); [ | discriminate].
    apply firstn_nil. }
  destruct (idx =? -1)%Z.
  - intros E; inversion E; subst; apply G; reflexivity.
  - destruct (read_csv lines idx); [discriminate | ].
    intros E; inversion E; subst; apply G; reflexivity.
Qed.

Lemma plot_after_failed_load_witness :
  create_interactive_plot
    (snd (parse_eeg_csv example_read_csv (map u ["a,b"; "1,2"]%string)
            (__init__ (u "rec.csv")))) default_max_channels
  = Raise (ValueError (u "No valid channels found to plot")).
Proof.
  apply (plot_after_failed_load example_read_csv (map u ["a,b"; "1,2"]%string)
           (u "rec.csv")
           (ValueError (u "Could not find header line starting with 'Time'"))).
  vm_compute; reflexivity.
Defined.

(** ** The dashboard and the command line *)

Lemma create_dash_app_ok (self : EEGPlotter) (app : DashApp) :
  create_dash_app self = Ok app ->
  create_interactive_plot self (Some 30%Z) = Ok (app_figure app)
  /\ app_callback app = update_output
  /\ fig_rows (app_figure app)
     = Z.of_nat (Nat.min 30 (List.length (channels self)))
  /\ (1 <= fig_rows (app_figure app) <= 30)%Z.
Proof.
  unfold create_dash_app, default_max_channels; intros E.
  destruct (create_interactive_plot self (Some 30%Z)) as [fig | e] eqn:F;
    cbn [bind] in E; [ | discriminate].
  inversion E; subst; cbn [app_figure app_callback].
  destruct (create_interactive_plot_ok _ _ _ F) as (N & A & _).
  pose proof (channels_to_plot_pos_length self 30) as L.
  change (Pos.to_nat 30) with 30%nat in L.
  split; [reflexivity | split; [reflexivity | ]].
  rewrite A, L; split; [reflexivity | ].
  assert (List.length (channels_to_plot self (Some 30%Z)) <> 0)%nat.
  { destruct (channels_to_plot self (Some 30%Z)); [congruence | discriminate]. }
  lia.
Qed.

(** X13.  The dashboard is built with the default cap: when
    [create_dash_app] succeeds its figure is the one of
    [create_interactive_plot(30)], it has between 1 and 30 rows, namely
    the smaller of 30 and the number of channels, and its callback is
    [update_output]; when the figure cannot be built the same exception
    leaves [create_dash_app]. *)
Theorem dashboard_has_at_most_thirty_rows (self : EEGPlotter) :
  (forall app,
     create_dash_app self = Ok app ->
     create_interactive_plot self (Some 30%Z) = Ok (app_figure app)
     /\ app_callback app = update_output
     /\ fig_rows (app_figure app)
        = Z.of_nat (Nat.min 30 (List.length (channels self)))
     /\ (1 <= fig_rows (app_figure app) <= 30)%Z)
  /\ (forall e,
        create_dash_app self = Raise e <->
        create_interactive_plot self (Some 30%Z) = Raise e).
Proof.
  split; [intros app; apply create_dash_app_ok | ].
  unfold create_dash_app, default_max_channels.
  intros e; destruct (create_interactive_plot self (Some 30%Z));
    cbn [bind]; split; intros E; try discriminate;
    inversion E; reflexivity.
Qed.

Lemma main_banner_prints (o : output) :
  In o banner -> exists line, o = Print line.
Proof. intros [<- | [<- | []]]; eexists; reflexivity. Qed.

(** X14.  [main] starts the server only after a complete success: there
    is a file argument, the file exists and is read, [parse_eeg_csv] on
    a fresh plotter succeeds and [create_dash_app] builds the dashboard
    that is served; it is then served in debug mode on port 8060, with at
    most thirty rows. *)
Theorem main_serves_only_a_loaded_plot
    (read_csv : list str -> Z -> result DataFrame) (fs : str -> file)
    (argv : list str) (app : DashApp) (debug : bool) (port : Z) :
  In (RunServer app debug port) (main read_csv fs argv) ->
  debug = true /\ port = 8060%Z
  /\ exists csv lines md plotter,
       nth_error argv 1 = Some csv
       /\ fs csv = Lines lines
       /\ parse_eeg_csv read_csv lines (__init__ csv) = (Ok md, plotter)
       /\ create_dash_app plotter = Ok app
       /\ (1 <= fig_rows (app_figure app) <= 30)%Z.
Proof.
  unfold main; intros H; apply in_app_or in H.
  destruct H as [H | H];
    [apply main_banner_prints in H; destruct H; discriminate | ].
  destruct argv as [|a0 [|csv rest]];
    try (destruct H as [H | [H | []]]; discriminate).
  cbn [nth_error].
  assert (G : In (RunServer app debug port) (main_try read_csv fs csv) ->
              debug = true /\ port = 8060%Z
              /\ exists csv0 lines md plotter,
                   Some csv = Some csv0 /\ fs csv0 = Lines lines
                   /\ parse_eeg_csv read_csv lines (__init__ csv0)
                      = (Ok md, plotter)
                   /\ create_dash_app plotter = Ok app
                   /\ (1 <= fig_rows (app_figure app) <= 30)%Z).
  { unfold main_try; intros [G | G]; [discriminate | ].
    destruct (fs csv) as [ | | lines] eqn:F;
      try (destruct G as [G | []]; discriminate).
    destruct (parse_eeg_csv read_csv lines (__init__ csv)) as [[md | e] p] eqn:P;
      [ | destruct G as [G | []]; discriminate].
    destruct G as [G | G]; [discriminate | ].
    destruct (create_dash_app p) as [app' | e] eqn:D;
      destruct G as [G | []]; [ | discriminate].
    inversion G; subst.
    split; [reflexivity | split; [reflexivity | ]].
    exists csv, lines, md, p; repeat split; try assumption;
      apply (create_dash_app_ok p app D). }
  destruct (fs csv) eqn:F; [ | exact (G H) | exact (G H)].
  destruct H as [H | []]; discriminate.
Qed.

Lemma main_serves_only_a_loaded_plot_witness :
  exists app,
    In (RunServer app true 8060)
       (main example_read_csv
             (fun _ => Lines (map u ["Time,Fp1,CM"; "0,1,2"]%string))
             [u "eeg_plotter.py"; u "rec.csv"])
    /\ (1 <= fig_rows (app_figure app) <= 30)%Z.
Proof.
  set (lines := map u ["Time,Fp1,CM"; "0,1,2"]%string).
  set (p := snd (parse_eeg_csv example_read_csv lines (__init__ (u "rec.csv")))).
  assert (P : parse_eeg_csv example_read_csv lines (__init__ (u "rec.csv"))
              = (Ok [], p)).
  { rewrite (surjective_pairing (parse_eeg_csv _ _ _)); fold p.
    f_equal; vm_compute; reflexivity. }
  assert (F : exists fig, create_interactive_plot p (Some 30%Z) = Ok fig)
    by (eexists; vm_compute; reflexivity).
  destruct F as (fig & F).
  assert (E : In (RunServer {| app_figure := fig;
                               app_callback := update_output |} true 8060)
                 (main example_read_csv (fun _ => Lines lines)
                       [u "eeg_plotter.py"; u "rec.csv"])).
  { unfold main, main_try, create_dash_app, default_max_channels.
    rewrite P, F; cbn [bind].
    apply in_or_app; right; right; right; left; reflexivity. }
  eexists; split; [exact E | ].
  destruct (main_serves_only_a_loaded_plot _ _ _ _ _ _ E)
    as (_ & _ & _ & _ & _ & _ & _ & _ & _ & _ & B).
  exact B.
Defined.

(** X15.  [main] never ends silently.  Without a file argument it prints
    the notice and then, because the [try] block is entered with
    [csv_file] unbound, an error line as well; with a path that does not
    exist it prints the not-found line and stops before any load; in
    every other run the last thing it does is print an error line or
    start the server. *)
Theorem main_ends_with_an_error_or_the_server
    (read_csv : list str -> Z -> result DataFrame) (fs : str -> file)
    (argv : list str) :
  ((List.length argv < 2)%nat ->
   main read_csv fs argv
   = banner ++ [Print (u "No CSV file provided.");
                PrintError (UnboundLocal (u "csv_file"))])
  /\ (forall csv, nth_error argv 1 = Some csv -> fs csv = Missing ->
        main read_csv fs argv
        = banner ++ [Print (u "Error: File '" ++ csv ++ u "' not found!")])
  /\ (forall csv, nth_error argv 1 = Some csv -> fs csv <> Missing ->
        exists before final,
          main read_csv fs argv
          = banner ++ Print (u "Loading " ++ csv ++ u "...") :: before
            ++ [final]
          /\ (before = [] \/ before = [Print (u "Opening plot in browser...")])
          /\ ((exists f, final = PrintError f)
              \/ exists app, final = RunServer app true 8060)).
Proof.
  split; [ | split].
  - intros L; destruct argv as [|a0 [|csv rest]]; cbn in L; try lia;
      reflexivity.
  - intros csv Hn F; destruct argv as [|a0 [|c rest]]; try discriminate.
    cbn [nth_error] in Hn; inversion Hn; subst.
    unfold main; rewrite F; reflexivity.
  - intros csv Hn F; destruct argv as [|a0 [|c rest]]; try discriminate.
    cbn [nth_error] in Hn; inversion Hn; subst.
    unfold main.
    assert (G : exists before final,
              main_try read_csv fs csv
              = Print (u "Loading " ++ csv ++ u "...") :: before ++ [final]
              /\ (before = []
                  \/ before = [Print (u "Opening plot in browser...")])
              /\ ((exists f, final = PrintError f)
                  \/ exists app, final = RunServer app true 8060)).
    { unfold main_try; destruct (fs csv) as [ | | lines];
        try (exists [], (PrintError OSError); split; [reflexivity | ];
             split; [left; reflexivity | left; eexists; reflexivity]).
      destruct (parse_eeg_csv read_csv lines (__init__ csv)) as [[md | e] p].
      - destruct (create_dash_app p) as [app | e].
        + exists [Print (u "Opening plot in browser...")],
                 (RunServer app true 8060).
          split; [reflexivity | split; [right; reflexivity | ]].
          right; eexists; reflexivity.
        + exists [Print (u "Opening plot in browser...")],
                 (PrintError (Exn e)).
          split; [reflexivity | split; [right; reflexivity | ]].
          left; eexists; reflexivity.
      - exists [], (PrintError (Exn e)).
        split; [reflexivity | split; [left; reflexivity | ]].
        left; eexists; reflexivity. }
    destruct G as (before & final & G & HB & HF).
    exists before, final; split; [ | split; assumption].
    destruct (fs csv); [congruence | | ]; rewrite G; reflexivity.
Qed.

(** ** The limit on the number of rows *)

(** X16.  A figure is built only for 1 to 67 rows.  With 68 or more
    selected channels [make_subplots] rejects the vertical spacing 0.015
    and [create_interactive_plot] raises a [ValueError] that is not the
    one of an empty selection, whatever the data; sixty-eight loaded
    channels plotted without a cap are such a case. *)
Theorem too_many_rows_is_a_value_error :
  (forall self cap fig,
     create_interactive_plot self cap = Ok fig ->
     (1 <= fig_rows fig <= 67)%Z)
  /\ (forall self cap,
        (68 <= List.length (channels_to_plot self cap))%nat ->
        exists msg,
          create_interactive_plot self cap = Raise (ValueError msg)
          /\ msg <> u "No valid channels found to plot")
  /\ (List.length (channels_to_plot (loaded (u "Time" :: numbered "C" 68)) None)
      = 68%nat
      /\ exists msg,
           create_interactive_plot (loaded (u "Time" :: numbered "C" 68)) None
           = Raise (ValueError msg)).
Proof.
  split; [ | split].
  - intros self cap fig E.
    pose proof (create_interactive_plot_rows_bound _ _ _ E) as B.
    destruct (create_interactive_plot_ok _ _ _ E) as (_ & A & _).
    rewrite A; lia.
  - intros self cap L; exists spacing_message; split.
    + apply create_interactive_plot_too_many, L.
    + exact spacing_message_differs.
  - split; [vm_compute; reflexivity | ].
    exists spacing_message; apply create_interactive_plot_too_many.
    vm_compute; lia.
Qed.
